(** * Log anomaly pipeline of [app.py]: parser, features, scaling, thresholding

    A shallow embedding of [analyze_logs] from [src/app.py].

    Conventions of the model.
    - Python [str] values are Rocq [string]s; a character is read as the
      Unicode code point of the same number, so the model covers text whose
      code points are below 256.
    - [analyze_logs] takes the list [logs] that [readlines] returned;
      creating and reading [system_logs.txt] (lines 12-31) is [read_logs],
      on a file system that maps paths to texts.
    - A pandas [DataFrame] is a row count together with a finite map from
      column names to columns; [df[c] = ...] inserts into that map.
    - Numeric cells are exact rationals; [None] stands for NaN.  Rounding of
      binary floating point is not modelled.
    - Raising is a result in the [result] monad; the run stops at the first
      exception.
    - pandas' [to_datetime], numpy's square root and scikit-learn's
      [IsolationForest] are collaborators outside the repository: they are
      variables, and every statement holds for all of them.  The module
      [Toy] gives them small executable stand-ins, used to run the theorems
      on concrete batches.
    - The estimator is randomized.  Its random choices are drawn from a
      generator, whose state is explicit: the state a seed initialises, or
      the state of the process-wide generator, which differs from run to
      run. *)

From Stdlib Require Import Ascii String QArith Qround Lqa Sorted.
From stdpp Require Import gmap strings list fin_maps pretty.

Local Open Scope string_scope.

(** ** Python string primitives *)

Module Py.

(** [str.isspace] for one character, restricted to code points below 256:
  TAB..CR, FS..US, SPACE, NEL (0x85) and NBSP (0xA0). *)
Definition isspace (c : ascii) : bool :=
let n := nat_of_ascii c in
(((9 <=? n) && (n <=? 13)) || ((28 <=? n) && (n <=? 32))
 || (n =? 133) || (n =? 160))%nat.

(** Simple lower-case mapping for code points below 256: A-Z, and the
  Latin-1 capitals 0xC0..0xDE except the multiplication sign 0xD7. *)
Definition tolower (c : ascii) : ascii :=
let n := nat_of_ascii c in
if (((65 <=? n) && (n <=? 90))
    || ((192 <=? n) && (n <=? 222) && negb (n =? 215)))%nat
then ascii_of_nat (n + 32) else c.

(** [s.lstrip()] *)
Fixpoint lstrip (s : string) : string :=
match s with
| "" => ""
| String c s' => if isspace c then lstrip s' else s
end.

(** [s.rstrip()] *)
Fixpoint rstrip (s : string) : string :=
match s with
| "" => ""
| String c s' =>
    match rstrip s' with
    | "" => if isspace c then "" else String c ""
    | r => String c r
    end
end.

(** [s.strip()]: whitespace removed at both ends. *)
Definition strip (s : string) : string := rstrip (lstrip s).

(** [s.split(" ", maxsplit)]: cut at single space characters, left to
  right, at most [maxsplit] times; empty pieces are kept. *)
Fixpoint split (s : string) (maxsplit : nat) {struct s} : list string :=
match s with
| "" => [""]
| String c s' =>
    match maxsplit with
    | O => [s]
    | S m =>
        if Ascii.eqb c " " then "" :: split s' m
        else match split s' maxsplit with
             | p :: ps => String c p :: ps
             | [] => [String c ""]
             end
    end
end.

(** [len(s)] *)
Definition len (s : string) : nat := String.length s.

(** [s.lower()] on the modelled code points. *)
Fixpoint lower (s : string) : string :=
match s with
| "" => ""
| String c s' => String (tolower c) (lower s')
end.

(** Does [pat] match at the start of [s] when case is ignored?  This is
  [re.match] for a literal pattern compiled with [re.IGNORECASE]. *)
Fixpoint match_ignorecase (pat s : string) : bool :=
match pat, s with
| "", _ => true
| String _ _, "" => false
| String p pat', String c s' =>
    Ascii.eqb (tolower c) (tolower p) && match_ignorecase pat' s'
end.

(** [re.search] for a literal pattern compiled with [re.IGNORECASE]: try
  every start position from the left. *)
Fixpoint search_ignorecase (pat s : string) : bool :=
match_ignorecase pat s
|| match s with
   | "" => false
   | String _ s' => search_ignorecase pat s'
   end.

End Py.

(** ** Exceptions and the result monad *)

(** The Python exceptions that can end a run. *)
Inductive exception : Type :=
| KeyError (column : string)
    (* [df[c]] for a column that does not exist *)
| TypeError (column : string)
    (* an operation applied to a column of another dtype *)
| ValueError_length
    (* "Length of values does not match length of index" *)
| ValueError_to_datetime
    (* [pd.to_datetime] met a timestamp it cannot parse *)
| ValueError_no_samples
    (* "Found array with 0 sample(s) ... while a minimum of 1 is required
       by StandardScaler" *)
| ValueError_estimator.
    (* raised from inside [IsolationForest] *)

Inductive result (A : Type) : Type :=
| Ok (a : A)
| Raise (e : exception).
Arguments Ok {A} a.
Arguments Raise {A} e.

#[global] Instance result_ret : MRet result := fun _ a => Ok a.
#[global] Instance result_bind : MBind result := fun _ _ f m =>
  match m with
  | Ok a => f a
  | Raise e => Raise e
  end.

(** [for x in xs: state = body(state, x)], stopping at the first raise. *)
Fixpoint for_each {A S : Type} (xs : list A) (body : S -> A -> result S)
    (s : S) : result S :=
  match xs with
  | [] => Ok s
  | x :: xs' => s' ← body s x; for_each xs' body s'
  end.

(** An external call that either returns or raises [e]. *)
Definition or_raise {A : Type} (e : exception) (o : option A) : result A :=
  match o with
  | Some a => Ok a
  | None => Raise e
  end.

(** ** Rational helpers *)

Definition Qsum (l : list Q) : Q := fold_right Qplus 0%Q l.

Fixpoint insert_sorted (x : Q) (l : list Q) : list Q :=
  match l with
  | [] => [x]
  | y :: l' => if Qle_bool x y then x :: l else y :: insert_sorted x l'
  end.

Definition sort (l : list Q) : list Q := fold_right insert_sorted [] l.

(** The cells of a numeric column that are not NaN. *)
Definition present (col : list (option Q)) : list Q := omap id col.

(** ** Log parsing (lines 33-42) *)

(** One iteration of the parsing loop: [data] is the list built so far. *)
Definition parse_step (data : list (list string)) (log : string)
    : list (list string) :=
  let parts := Py.split (Py.strip log) 3 in
  if (length parts <? 4)%nat then data
  else
    let timestamp := nth 0 parts "" +:+ " " +:+ nth 1 parts "" in
    let level := nth 2 parts "" in
    let message := nth 3 parts "" in
    data ++ [[timestamp; level; message]].

Definition parse_logs (logs : list string) : list (list string) :=
  fold_left parse_step logs [].

(** The file written when [system_logs.txt] does not exist (lines 14-23). *)
Definition sample_logs : list string :=
  [ "2024-09-10 10:15:23 INFO Application started successfully";
    "2024-09-10 10:16:45 INFO User login: user123";
    "2024-09-10 10:17:12 WARNING Memory usage at 85%";
    "2024-09-10 10:18:33 INFO Database connection established";
    "2024-09-10 10:19:44 ERROR Failed to connect to external API";
    "2024-09-10 10:20:15 INFO Processing batch job 001";
    "2024-09-10 10:21:22 CRITICAL Database connection timeout";
    "2024-09-10 10:22:11 INFO Batch job 001 completed" ].

(** What [readlines] returns for that file: every line ends in a newline. *)
Definition newline : string := String (ascii_of_nat 10) "".
Definition sample_lines : list string :=
  map (fun log => log +:+ newline) sample_logs.

(** A batch of one row, and a batch of two rows around a dropped line. *)
Definition one_line : list string :=
  ["2024-09-10 10:15:23 INFO Application started successfully"].

Definition three_lines : list string :=
  ["2024-09-10 10:19:44 ERROR Failed to connect to external API";
   "restarting";
   "2024-09-10 10:20:15 INFO Processing batch job 001"].

(** ** Feature tables (lines 48, 55, 60) *)

Definition level_mapping : gmap string Z :=
  {[ "INFO" := 1%Z; "WARNING" := 2%Z; "ERROR" := 3%Z; "CRITICAL" := 4%Z ]}.

Definition keywords : list string := ["error"; "fail"; "timeout"].

Definition feature_cols : list string :=
  ["level_score"; "message_length"]
  ++ map (fun kw => "contains_" +:+ kw) keywords.

(** [df["level"].map(level_mapping)] on one cell: NaN for an unmapped level. *)
Definition level_score (level : string) : option Q :=
  inject_Z <$> level_mapping !! level.

(** [df["message"].apply(len)] on one cell. *)
Definition message_length (message : string) : option Q :=
  Some (inject_Z (Z.of_nat (Py.len message))).

(** [df["message"].str.contains(kw, case=False).astype(int)] on one cell.
    The keywords hold no regular-expression metacharacter, so the pattern
    is a literal. *)
Definition contains (kw message : string) : option Q :=
  Some (if Py.search_ignorecase kw message then 1%Q else 0%Q).

(** ** The classification written to [is_anomaly] *)

Inductive label : Type :=
| Anomaly   (* the string shown with a cross mark *)
| Normal.   (* the string shown with a check mark *)

(** ** scikit-learn's estimator object (line 67) *)

Record IsolationForest : Type := {
  contamination : Q;
  n_estimators : Z;
  random_state : option Z
}.

(** The estimator built on line 67:
    [IsolationForest(contamination=0.05, n_estimators=150, random_state=42)]. *)
Definition model : IsolationForest :=
  {| contamination := 5 # 100; n_estimators := 150;
     random_state := Some 42%Z |}.

(** A two-dimensional float array, stored by column. *)
Record ndarray : Type := {
  n_samples : nat;
  features : list (list (option Q))
}.

(** ** pandas quantile and the threshold rule (lines 74-75) *)

(** Modelled from the spec: pandas' [Series.quantile] is not under src/.
    The percentile of section 4.2, step 5, with pandas' default linear
    interpolation: NaN cells are skipped, the remaining [n] values are
    sorted, and the result lies at the virtual index [q * (n - 1)] between
    its two neighbours.  An empty series has quantile NaN. *)
Definition quantile (q : Q) (col : list (option Q)) : option Q :=
  let v := sort (present col) in
  match v with
  | [] => None
  | _ =>
      let pos := (q * inject_Z (Z.of_nat (length v - 1)))%Q in
      let lo := Z.to_nat (Qfloor pos) in
      let hi := Nat.min (lo + 1) (length v - 1) in
      let frac := (pos - inject_Z (Qfloor pos))%Q in
      let a := nth lo v 0%Q in
      let b := nth hi v 0%Q in
      Some (a + (b - a) * frac)%Q
  end.

(** The lambda of line 75: [x < threshold]; any comparison with NaN is
    false. *)
Definition classify (threshold : option Q) (x : option Q) : label :=
  match x, threshold with
  | Some x, Some t =>
      match (x ?= t)%Q with
      | Lt => Anomaly
      | _ => Normal
      end
  | _, _ => Normal
  end.

(** ** StandardScaler (lines 63-64) *)

Section Scaler.

(** numpy's square root on floats. *)
Variable np_sqrt : Q -> Q.

(** The number of cells of a feature that are not NaN. *)
Definition n_samples_seen_ (col : list (option Q)) : Q :=
  inject_Z (Z.of_nat (length (present col))).

(** Modelled from the spec: scikit-learn's [StandardScaler] is not under
    src/.  Attribute [mean_], the per-feature mean across the batch
    (section 4.2, step 2), taken over the cells that are not NaN.  A feature
    without such a cell gets 0 here; [transform] never uses it. *)
Definition mean_ (col : list (option Q)) : Q :=
  (Qsum (present col) / n_samples_seen_ col)%Q.

(** Modelled from the spec: scikit-learn's [StandardScaler] is not under
    src/.  Attribute [var_], the per-feature population variance across the
    batch, taken over the cells that are not NaN. *)
Definition var_ (col : list (option Q)) : Q :=
  (Qsum (map (fun x => (x - mean_ col) * (x - mean_ col)) (present col))
   / n_samples_seen_ col)%Q.

(** Modelled from the spec: scikit-learn's [StandardScaler] is not under
    src/.  Attribute [scale_], the per-feature standard deviation, replaced
    by 1 for a feature of zero variance, which makes its normalized value 0
    without a division by zero (section 4.2, step 2). *)
Definition scale_ (col : list (option Q)) : Q :=
  if Qeq_bool (var_ col) 0 then 1%Q else np_sqrt (var_ col).

(** Modelled from the spec: scikit-learn's [StandardScaler] is not under
    src/.  [transform] on one feature, the standard score of every cell
    (section 4.2, step 2); NaN cells stay NaN. *)
Definition transform (col : list (option Q)) : list (option Q) :=
  map (fmap (fun x => ((x - mean_ col) / scale_ col)%Q)) col.

(** Modelled from the spec: scikit-learn's [StandardScaler] is not under
    src/.  [StandardScaler().fit_transform(X)]: an array without rows is
    refused by input validation, which is the failure on an empty batch of
    section 4.2; otherwise every feature is transformed with its own mean
    and scale. *)
Definition fit_transform (X : ndarray) : result ndarray :=
  if (n_samples X =? 0)%nat then Raise ValueError_no_samples
  else Ok {| n_samples := n_samples X;
             features := map transform (features X) |}.

End Scaler.

(** ** DataFrames *)

Section Frames.

(** Values of pandas' datetime64 dtype. *)
Variable datetime : Type.

Inductive series : Type :=
| StrCol (l : list string)
| TimeCol (l : list datetime)
| NumCol (l : list (option Q))
| LabelCol (l : list label).

Definition series_len (s : series) : nat :=
  match s with
  | StrCol l => length l
  | TimeCol l => length l
  | NumCol l => length l
  | LabelCol l => length l
  end.

Record DataFrame : Type := {
  index : nat;
  columns : gmap string series
}.

(** [pd.DataFrame(data, columns=names)] for rows of strings. *)
Definition frame_of_rows (data : list (list string)) (names : list string)
    : DataFrame :=
  {| index := length data;
     columns :=
       list_to_map
         (imap (fun j name =>
                  (name, StrCol (map (fun row => nth j row "") data)))
               names) |}.

(** [df[c]] *)
Definition getitem (df : DataFrame) (c : string) : result series :=
  or_raise (KeyError c) (columns df !! c).

(** [df[c]] where the following operation needs [str] cells. *)
Definition get_str (df : DataFrame) (c : string) : result (list string) :=
  s ← getitem df c;
  match s with
  | StrCol l => Ok l
  | _ => Raise (TypeError c)
  end.

(** [df[c]] where the following operation needs numeric cells. *)
Definition get_num (df : DataFrame) (c : string)
    : result (list (option Q)) :=
  s ← getitem df c;
  match s with
  | NumCol l => Ok l
  | _ => Raise (TypeError c)
  end.

(** [df[c] = s]: the column is added or replaced; the values must be as
    many as the frame has rows. *)
Definition setitem (df : DataFrame) (c : string) (s : series)
    : result DataFrame :=
  if (series_len s =? index df)%nat
  then Ok {| index := index df; columns := <[c := s]> (columns df) |}
  else Raise ValueError_length.

(** [df[names]] handed to scikit-learn as a float array. *)
Fixpoint get_columns (df : DataFrame) (names : list string)
    : result (list (list (option Q))) :=
  match names with
  | [] => Ok []
  | c :: names' =>
      col ← get_num df c;
      cols ← get_columns df names';
      Ok (col :: cols)
  end.

Definition to_array (df : DataFrame) (names : list string)
    : result ndarray :=
  cols ← get_columns df names;
  Ok {| n_samples := index df; features := cols |}.

(** [df[names] = X] for an array [X]. *)
Definition set_columns (df : DataFrame) (names : list string) (X : ndarray)
    : result DataFrame :=
  for_each (zip names (features X))
           (fun df '(c, col) => setitem df c (NumCol col)) df.

End Frames.

Arguments StrCol {datetime} l.
Arguments TimeCol {datetime} l.
Arguments NumCol {datetime} l.
Arguments LabelCol {datetime} l.
Arguments series_len {datetime} s.
Arguments index {datetime} d.
Arguments columns {datetime} d.
Arguments frame_of_rows {datetime} data names.
Arguments getitem {datetime} df c.
Arguments get_str {datetime} df c.
Arguments get_num {datetime} df c.
Arguments setitem {datetime} df c s.
Arguments get_columns {datetime} df names.
Arguments to_array {datetime} df names.
Arguments set_columns {datetime} df names X.

(** ** The pipeline (lines 33-81) *)

Section Pipeline.

Variable datetime : Type.
(** [pd.to_datetime] on a column of strings; [None] when it raises. *)
Variable to_datetime : list string -> option (list datetime).
Variable np_sqrt : Q -> Q.
(** A fitted [IsolationForest]. *)
Variable fitted : Type.
(** [model.decision_function(X)] for a fitted model. *)
Variable decision_function : fitted -> ndarray -> option (list Q).

(** [model.fit_predict(X)]: the fitted model and the labels -1 / 1.  It
    is an argument of the pipeline, not a section variable, so that two
    runs can be given their own fitting procedure. *)
Definition fit_predict_t : Type :=
  IsolationForest -> ndarray -> option (fitted * list Z).

(** Lines 44-45: the frame of parsed rows, timestamps converted. *)
Definition load_frame (data : list (list string))
    : result (DataFrame datetime) :=
  let df := frame_of_rows data ["timestamp"; "level"; "message"] in
  ts ← get_str df "timestamp";
  parsed ← or_raise ValueError_to_datetime (to_datetime ts);
  setitem df "timestamp" (TimeCol parsed).

(** Lines 48-57: the five feature columns. *)
Definition add_features (df : DataFrame datetime)
    : result (DataFrame datetime) :=
  levels ← get_str df "level";
  df ← setitem df "level_score" (NumCol (map level_score levels));
  messages ← get_str df "message";
  df ← setitem df "message_length" (NumCol (map message_length messages));
  for_each keywords
    (fun df kw =>
       messages ← get_str df "message";
       setitem df ("contains_" +:+ kw)
               (NumCol (map (contains kw) messages)))
    df.

(** Lines 63-64: the feature columns are replaced by their scaled
    values. *)
Definition scale_features (df : DataFrame datetime)
    : result (DataFrame datetime) :=
  X ← to_array df feature_cols;
  X' ← fit_transform np_sqrt X;
  set_columns df feature_cols X'.

(** Lines 67-71: fit, then the columns [anomaly] and [score]. *)
Definition fit_and_score (fit_predict : fit_predict_t)
    (df : DataFrame datetime) : result (DataFrame datetime) :=
  X ← to_array df feature_cols;
  '(m, anomaly) ← or_raise ValueError_estimator (fit_predict model X);
  df ← setitem df "anomaly"
         (NumCol (map (fun z => Some (inject_Z z)) anomaly));
  X ← to_array df feature_cols;
  score ← or_raise ValueError_estimator (decision_function m X);
  setitem df "score" (NumCol (map Some score)).

(** Lines 74-75: the threshold and the column [is_anomaly]. *)
Definition apply_threshold (df : DataFrame datetime)
    : result (DataFrame datetime) :=
  scores ← get_num df "score";
  let threshold := quantile (5 # 100) scores in
  setitem df "is_anomaly" (LabelCol (map (classify threshold) scores)).

(** Lines 44-81, from the parsed rows to the returned frame. *)
Definition score_records (fit_predict : fit_predict_t)
    (data : list (list string)) : result (DataFrame datetime) :=
  df ← load_frame data;
  df ← add_features df;
  df ← scale_features df;
  df ← fit_and_score fit_predict df;
  apply_threshold df.

(** [analyze_logs], given the lines read from the log file. *)
Definition analyze_logs (fit_predict : fit_predict_t) (logs : list string)
    : result (DataFrame datetime) :=
  score_records fit_predict (parse_logs logs).

End Pipeline.

Arguments load_frame {datetime} to_datetime data.
Arguments add_features {datetime} df.
Arguments scale_features {datetime} np_sqrt df.
Arguments fit_and_score {datetime fitted} decision_function fit_predict df.
Arguments apply_threshold {datetime} df.
Arguments score_records {datetime} to_datetime np_sqrt {fitted}
  decision_function fit_predict data.
Arguments analyze_logs {datetime} to_datetime np_sqrt {fitted}
  decision_function fit_predict logs.

(** ** The randomness of the estimator (lines 67-68) *)

Section Randomness.

Context {fitted : Type}.
(** The state of a pseudo-random generator. *)
Variable RandomState : Type.
(** The state a generator has when it is initialised with a seed. *)
Variable seeded : Z -> RandomState.
(** Building the ensemble: [n_estimators] randomized partitioning trees
    on [X] and the labels for the given contamination, every random choice
    drawn from the generator it is given. *)
Variable build_trees :
  RandomState -> Z -> Q -> ndarray -> option (fitted * list Z).

(** Modelled from the spec: the estimator's handling of its seed is
    scikit-learn's and not under src/.  Section 4.2, step 3 and section 9:
    the seed is threaded through the construction of the ensemble.  With a
    seed the generator is the one that seed initialises; without one it is
    the process-wide generator in whatever state the run finds it. *)
Definition check_random_state (random_state : option Z)
    (ambient : RandomState) : RandomState :=
  match random_state with
  | Some seed => seeded seed
  | None => ambient
  end.

(** Modelled from the spec: [IsolationForest.fit_predict] is scikit-learn's
    and not under src/.  The fit of a run that finds the process-wide
    generator in state [ambient]: the ensemble of section 4.2, step 3,
    built with the estimator's own parameters and generator. *)
Definition fit_predict_in (ambient : RandomState) : fit_predict_t fitted :=
  fun estimator X =>
    build_trees (check_random_state (random_state estimator) ambient)
      (n_estimators estimator) (contamination estimator) X.

End Randomness.

Arguments check_random_state {RandomState} seeded random_state ambient.
Arguments fit_predict_in {fitted RandomState} seeded build_trees ambient.

(** ** A small executable stand-in for the collaborators *)

Module Toy.

(** Timestamps are kept as text; every string parses. *)
Definition to_datetime (l : list string) : option (list string) := Some l.

(** Square root truncated to six decimal places. *)
Definition np_sqrt (q : Q) : Q :=
  (Z.sqrt (Qnum q * 10 ^ 12 / Z.pos (Qden q)) # 10 ^ 6)%Z.

(** Row [i] of an array, NaN read as 0. *)
Definition row (X : ndarray) (i : nat) : list Q :=
  map (fun col => default 0%Q (nth i col None)) (features X).

(** The further a row is from the origin, the lower its score. *)
Definition decision_function (m : unit) (X : ndarray) : option (list Q) :=
  Some (map (fun i => Qred (1 - Qsum (map (fun x => x * x) (row X i)))%Q)
            (seq 0 (n_samples X))).

Definition fit_predict (p : IsolationForest) (X : ndarray)
    : option (unit * list Z) :=
  Some (tt, repeat 1%Z (n_samples X)).

(** A generator whose state is a number; a seed is its own state. *)
Definition seeded (seed : Z) : Z := seed.

(** An ensemble whose labels depend on the generator: every row is an
    inlier when the state is even, an outlier when it is odd. *)
Definition build_trees (state : Z) (n : Z) (c : Q) (X : ndarray)
    : option (unit * list Z) :=
  Some (tt, repeat (if Z.even state then 1%Z else (-1)%Z) (n_samples X)).

(** The estimator of line 67 without its seed. *)
Definition unseeded : IsolationForest :=
  {| contamination := 5 # 100; n_estimators := 150; random_state := None |}.

(** The pipeline with these stand-ins. *)
Definition run (logs : list string) : result (DataFrame string) :=
  analyze_logs to_datetime np_sqrt decision_function fit_predict logs.

End Toy.

(** ** Row views of frames and of parsed data *)

(** Column [j] of the parsed rows. *)
Definition column (j : nat) (data : list (list string)) : list string :=
  map (fun row => nth j row "") data.

(** The feature columns before scaling, in the order of [feature_cols]. *)
Definition raw_features (data : list (list string))
    : list (list (option Q)) :=
  [ map level_score (column 1 data); map message_length (column 2 data) ]
  ++ map (fun kw => map (contains kw) (column 2 data)) keywords.

(** The array handed to the estimator: the scaled feature columns. *)
Definition scaled_features (np_sqrt : Q -> Q) (data : list (list string))
    : ndarray :=
  {| n_samples := length data;
     features := map (transform np_sqrt) (raw_features data) |}.

Section Views.

Context {datetime : Type}.

(** The frame after lines 44-45. *)
Definition parsed_frame (data : list (list string))
    (parsed : list datetime) : DataFrame datetime :=
  {| index := length data;
     columns :=
       <["timestamp" := TimeCol parsed]>
         (columns (frame_of_rows data ["timestamp"; "level"; "message"]))
  |}.

(** [df[names] = cols] on the column map. *)
Definition with_columns (names : list string)
    (cols : list (list (option Q))) (m : gmap string (series datetime))
    : gmap string (series datetime) :=
  fold_left (fun m '(c, col) => <[c := NumCol col]> m) (zip names cols) m.

(** The frame returned by a successful run, written out. *)
Definition final_frame (np_sqrt : Q -> Q) (data : list (list string))
    (parsed : list datetime) (anomaly : list Z) (score : list Q)
    : DataFrame datetime :=
  let scores := map Some score in
  {| index := length data;
     columns :=
       <["is_anomaly" :=
           LabelCol (map (classify (quantile (5 # 100) scores)) scores)]>
       (<["score" := NumCol scores]>
       (<["anomaly" := NumCol (map (fun z => Some (inject_Z z)) anomaly)]>
       (with_columns feature_cols
          (features (scaled_features np_sqrt data))
       (with_columns feature_cols (raw_features data)
          (columns (parsed_frame data parsed)))))) |}.

(** The fields of one row that the page shows (line 117) together with
    the classification. *)
Record ScoredRecord : Type := {
  sr_timestamp : datetime;
  sr_level : string;
  sr_message : string;
  sr_score : option Q;
  sr_is_anomaly : label
}.

(** Row [i] of a frame, [None] when [i] is past the end or a column is
    missing or of another dtype. *)
Definition iloc (df : DataFrame datetime) (i : nat) : option ScoredRecord :=
  match columns df !! "timestamp", columns df !! "level",
        columns df !! "message", columns df !! "score",
        columns df !! "is_anomaly" with
  | Some (TimeCol ts), Some (StrCol ls), Some (StrCol ms),
    Some (NumCol ss), Some (LabelCol as_) =>
      t ← ts !! i; l ← ls !! i; m ← ms !! i; s ← ss !! i; a ← as_ !! i;
      Some {| sr_timestamp := t; sr_level := l; sr_message := m;
              sr_score := s; sr_is_anomaly := a |}
  | _, _, _, _, _ => None
  end.

End Views.

Section Collaborators.

Context {datetime fitted : Type}.
Variable to_datetime : list string -> option (list datetime).
Variable np_sqrt : Q -> Q.
Variable decision_function : fitted -> ndarray -> option (list Q).
Variable fit_predict : fit_predict_t fitted.

(** The three external calls of a run on [data] return, each with one
    value per row. *)
Definition collaborators_return (data : list (list string))
    (parsed : list datetime) (anomaly : list Z) (score : list Q) : Prop :=
  to_datetime (column 0 data) = Some parsed
  /\ length parsed = length data
  /\ exists m : fitted,
       fit_predict model (scaled_features np_sqrt data) = Some (m, anomaly)
       /\ length anomaly = length data
       /\ decision_function m (scaled_features np_sqrt data) = Some score
       /\ length score = length data.

End Collaborators.

(** ** Vocabulary of the statements *)

(** The whitespace-separated segments of a line: its maximal runs of
    characters that are not whitespace (what [line.split()] returns). *)
Fixpoint whitespace_segments (s : string) : list string :=
  match s with
  | "" => []
  | String c s' =>
      if Py.isspace c then whitespace_segments s'
      else
        match s' with
        | "" => [String c ""]
        | String c' _ =>
            if Py.isspace c' then String c "" :: whitespace_segments s'
            else match whitespace_segments s' with
                 | p :: ps => String c p :: ps
                 | [] => [String c ""]
                 end
        end
  end.

(** No character of [s] is whitespace. *)
Fixpoint no_space (s : string) : bool :=
  match s with
  | "" => true
  | String c s' => negb (Py.isspace c) && no_space s'
  end.

(** A token: not empty, and free of whitespace. *)
Definition is_token (s : string) : Prop := s <> "" /\ no_space s = true.

(** The line rebuilt from a parsed row [[timestamp; level; message]]. *)
Definition reconstruct (row : list string) : string :=
  nth 0 row "" +:+ " " +:+ nth 1 row "" +:+ " " +:+ nth 2 row "".

(** [kw] occurs in [s] as a substring when case is ignored. *)
Definition occurs_ignoring_case (kw s : string) : Prop :=
  exists pre mid suf,
    s = pre +:+ mid +:+ suf /\ Py.lower mid = Py.lower kw.

(** [v] is the 0/1 indicator of [kw] occurring in [message]. *)
Definition indicator (kw message : string) (v : Q) : Prop :=
  (occurs_ignoring_case kw message /\ v = 1%Q)
  \/ (~ occurs_ignoring_case kw message /\ v = 0%Q).

(** Row [i] of an array: one cell per feature. *)
Definition feature_vector (X : ndarray) (i : nat)
    : option (list (option Q)) :=
  mapM (fun col => col !! i) (features X).

(** ** Vocabulary of the further statements *)

(** Every character of [s] is whitespace. *)
Fixpoint all_space (s : string) : bool :=
  match s with
  | "" => true
  | String c s' => Py.isspace c && all_space s'
  end.

(** No character of [s] is the space character. *)
Fixpoint no_blank (s : string) : bool :=
  match s with
  | "" => true
  | String c s' => negb (Ascii.eqb c " ") && no_blank s'
  end.

(** [s] does not begin with a whitespace character. *)
Definition starts_clean (s : string) : Prop :=
  match s with
  | "" => True
  | String c _ => Py.isspace c = false
  end.

(** No character of [s] is a newline. *)
Fixpoint no_newline (s : string) : bool :=
  match s with
  | "" => true
  | String c s' => negb (Ascii.eqb c (ascii_of_nat 10)) && no_newline s'
  end.

(** [" ".join(parts)] *)
Fixpoint join_blank (parts : list string) : string :=
  match parts with
  | [] => ""
  | [p] => p
  | p :: ps => p +:+ " " +:+ join_blank ps
  end.


#[global] Instance label_eq_dec : EqDecision label.
Proof. solve_decision. Defined.


(** The number of rows labelled anomalous. *)
Definition anomaly_count (labels : list label) : nat :=
  length (filter (fun l => l = Anomaly) labels).


(** ** The log file (lines 12-31) *)

(** The file system is a finite map from paths to the text of the files,
    as text mode presents it (line ends are newline characters). *)
Definition log_file_path : string := "system_logs.txt".

(** Lines 24-26: what the loop writes, every line followed by a newline. *)
Definition write_lines (logs : list string) : string :=
  foldr (fun log rest => log +:+ newline +:+ rest) "" logs.

(** Lines 13-26: the sample file is written only if the path does not
    exist. *)
Definition create_if_missing (fs : gmap string string) : gmap string string :=
  match fs !! log_file_path with
  | Some _ => fs
  | None => <[log_file_path := write_lines sample_logs]> fs
  end.

(** [file.readlines()]: the text cut after every newline; the newline
    stays at the end of its line, and a last line without newline is kept. *)
Fixpoint readlines (content : string) : list string :=
  match content with
  | "" => []
  | String c rest =>
      if Ascii.eqb c (ascii_of_nat 10) then String c "" :: readlines rest
      else match readlines rest with
           | [] => [String c ""]
           | line :: lines => String c line :: lines
           end
  end.

(** Lines 12-31: the file system afterwards and the lines read.  The file
    exists when it is opened for reading. *)
Definition read_logs (fs : gmap string string)
    : gmap string string * list string :=
  let fs' := create_if_missing fs in
  (fs', readlines (fs' !!! log_file_path)).

(** ** The page (lines 83-126) *)

Definition dq : string := String (ascii_of_nat 34) "".

(** Lines joined by newlines, none after the last. *)
Fixpoint unlines (l : list string) : string :=
  match l with
  | [] => ""
  | [x] => x
  | x :: l' => x +:+ newline +:+ unlines l'
  end.

(** The page up to the number of rows (lines 90-110). *)
Definition page_head : string :=
  unlines
    [ "";
      "    <html>";
      "    <head>";
      "        <title>AIOps Analysis</title>";
      "        <style>";
      "            body { font-family: Arial; margin: 40px; background: lightblue; }";
      "            .header { background: blue; color: white; padding: 20px; text-align: center; }";
      "            .box { background: white; padding: 20px; margin: 15px 0; border: 2px solid blue; }";
      "            .problem { background: red; color: white; padding: 10px; margin: 5px 0; }";
      "            .normal { background: green; color: white; padding: 10px; margin: 5px 0; }";
      "        </style>";
      "    </head>";
      "    <body>";
      "        <div class=" +:+ dq +:+ "header" +:+ dq +:+ ">";
      "            <h1> AIOps Log Analysis</h1>";
      "            <p>Machine Learning on Microsoft Azure</p>";
      "        </div>";
      "";
      "        <div class=" +:+ dq +:+ "box" +:+ dq +:+ ">";
      "            <h2> Results</h2>";
      "            <p><b>Total Logs:</b> " ].

(** Between the number of rows and the number of normal rows (lines 110-111). *)
Definition page_normal : string :=
  unlines
    [ "</p>";
      "            <p><b>Normal:</b> " ].

(** Between the number of normal rows and the number of problems (lines 111-112). *)
Definition page_problems : string :=
  unlines
    [ "</p>";
      "            <p><b>Problems:</b> " ].

(** Between the number of problems and the list of problems (lines 112-117). *)
Definition page_found : string :=
  unlines
    [ "</p>";
      "        </div>";
      "";
      "        <div class=" +:+ dq +:+ "box" +:+ dq +:+ ">";
      "            <h2>Problems Found</h2>";
      "            " ].

(** The page after the list of problems (lines 117-126). *)
Definition page_foot : string :=
  unlines
    [ "";
      "        </div>";
      "";
      "";
      "        <div class=" +:+ dq +:+ "box" +:+ dq +:+ ">";
      "            <p><b>Algorithm:</b> Isolation Forest | <b>Trees:</b> 150 | <b>Contamination:</b> 5%</p>";
      "        </div>";
      "    </body>";
      "    </html>";
      "    " ].

(** The pieces of one problem entry (line 117). *)
Definition div_open : string :=
  "<div class=" +:+ dq +:+ "problem" +:+ dq +:+ "><b>".

(** After the level. *)
Definition div_level : string :=
  ":</b> ".

(** After the message. *)
Definition div_message : string :=
  "<br><small>Time:".

(** After the timestamp. *)
Definition div_time : string :=
  " | Score: ".

(** After the score. *)
Definition div_close : string :=
  "</small></div>".

(** [''.join(strs)] *)
Definition join (strs : list string) : string := foldr String.append "" strs.

(** The rows of [l] at which [mask] is true. *)
Fixpoint filter_mask {A : Type} (mask : list bool) (l : list A) : list A :=
  match mask, l with
  | b :: mask', x :: l' =>
      if b then x :: filter_mask mask' l' else filter_mask mask' l'
  | _, _ => []
  end.

Section Page.

Context {datetime fitted : Type}.
Variable to_datetime : list string -> option (list datetime).
Variable np_sqrt : Q -> Q.
Variable decision_function : fitted -> ndarray -> option (list Q).
Variable fit_predict : fit_predict_t fitted.
(** [str] of a pandas timestamp. *)
Variable str_datetime : datetime -> string.
(** [format(x, ".3f")] of a float, NaN included. *)
Variable format_3f : option Q -> string.

(** [df[c] == value] for one of the two label strings: a boolean per row.
    No cell of another dtype equals a label. *)
Definition eq_label (df : DataFrame datetime) (c : string) (value : label)
    : result (list bool) :=
  s ← getitem df c;
  Ok match s with
     | LabelCol l => map (fun x => bool_decide (x = value)) l
     | StrCol l => map (fun _ => false) l
     | TimeCol l => map (fun _ => false) l
     | NumCol l => map (fun _ => false) l
     end.

Definition filter_series (mask : list bool) (s : series datetime)
    : series datetime :=
  match s with
  | StrCol l => StrCol (filter_mask mask l)
  | TimeCol l => TimeCol (filter_mask mask l)
  | NumCol l => NumCol (filter_mask mask l)
  | LabelCol l => LabelCol (filter_mask mask l)
  end.

(** [df[mask]]: the rows at which the mask is true, in every column; the
    mask must have one boolean per row. *)
Definition select (df : DataFrame datetime) (mask : list bool)
    : result (DataFrame datetime) :=
  if (length mask =? index df)%nat
  then Ok {| index := length (filter_mask mask mask);
             columns := filter_series mask <$> columns df |}
  else Raise ValueError_length.

(** [df.iterrows()], each row with the fields of [ScoredRecord].  On the
    frames [analyze_logs] returns these columns exist with these dtypes;
    for any other frame the model raises. *)
Definition iterrows (df : DataFrame datetime) : result (list ScoredRecord) :=
  mapM (fun i => or_raise (TypeError "row") (iloc df i)) (seq 0 (index df)).

(** The inner f-string of line 117 for one row. *)
Definition problem_entry (row : ScoredRecord) : string :=
  div_open +:+ sr_level row +:+ div_level +:+ sr_message row
  +:+ div_message +:+ str_datetime (sr_timestamp row)
  +:+ div_time +:+ format_3f (sr_score row) +:+ div_close.

(** The f-string of lines 90-126. *)
Definition page (total normal problems : nat) (entries : list string)
    : string :=
  page_head +:+ pretty total +:+ page_normal +:+ pretty normal
  +:+ page_problems +:+ pretty problems +:+ page_found
  +:+ join entries +:+ page_foot.

(** [home], given the lines read from the log file. *)
Definition home (logs : list string) : result string :=
  df ← analyze_logs to_datetime np_sqrt decision_function fit_predict logs;
  mask ← eq_label df "is_anomaly" Anomaly;
  anomalies ← select df mask;
  mask ← eq_label df "is_anomaly" Normal;
  normals ← select df mask;
  rows ← iterrows anomalies;
  Ok (page (index df) (index normals) (index anomalies)
           (map problem_entry rows)).

(** One request: the file system afterwards and the response. *)
Definition serve (fs : gmap string string)
    : gmap string string * result string :=
  let '(fs', logs) := read_logs fs in (fs', home logs).

End Page.

(** The rows of a frame, in order. *)
Definition rows {datetime : Type} (df : DataFrame datetime)
    : list (@ScoredRecord datetime) :=
  omap (iloc df) (seq 0 (index df)).

(** [x] occurs in [s]. *)
Definition substring (x s : string) : Prop :=
  exists pre suf, s = pre +:+ x +:+ suf.


Section Records.

Context {datetime : Type}.

(** The records made of five columns, row by row. *)
Fixpoint zip_records (ts : list datetime) (lv ms : list string)
    (ss : list (option Q)) (la : list label) : list (@ScoredRecord datetime) :=
  match ts, lv, ms, ss, la with
  | t :: ts', l :: lv', m :: ms', s :: ss', a :: la' =>
      {| sr_timestamp := t; sr_level := l; sr_message := m;
         sr_score := s; sr_is_anomaly := a |}
      :: zip_records ts' lv' ms' ss' la'
  | _, _, _, _, _ => []
  end.

End Records.

(** ** Stand-ins that refuse some inputs *)

Module Strict.

(** Only texts of nineteen characters parse as timestamps. *)
Definition to_datetime (l : list string) : option (list string) :=
  if forallb (fun s => (String.length s =? 19)%nat) l then Some l else None.

(** Fitting refuses an array that holds a NaN. *)
Definition fit_predict (p : IsolationForest) (X : ndarray)
    : option (unit * list Z) :=
  if forallb (forallb (fun cell : option Q => bool_decide (is_Some cell)))
             (features X)
  then Toy.fit_predict p X else None.

(** [format(x, ".3f")] on the thousandths, truncated: enough to tell the
    entries of a page apart. *)
Definition format_3f (x : option Q) : string :=
  match x with
  | Some q => pretty (Qfloor (q * 1000))
  | None => "nan"
  end.

End Strict.

(** All the columns a run writes. *)
Definition all_columns : list string :=
  ["timestamp"; "level"; "message"] ++ feature_cols
  ++ ["anomaly"; "score"; "is_anomaly"].

(** A line whose two adjacent spaces leave a timestamp of eleven
    characters, and a line with a level outside the table. *)
Definition odd_timestamp_line : list string := ["2024-09-10  10:15:23 INFO"].

Definition debug_line : list string :=
  ["2024-09-10 10:15:23 DEBUG cache warmed"].

(** * Theorems *)

Local Open Scope list_scope.

(** ** The result monad *)

Lemma bind_Ok {A B : Type} (a : A) (f : A -> result B) : Ok a ≫= f = f a.
Proof. reflexivity. Qed.

(** ** Frames: reading, writing and selecting columns *)

Section FrameFacts.

Context {datetime : Type}.
Implicit Types (df : DataFrame datetime) (m : gmap string (series datetime)).

Lemma get_str_lookup df c l :
  columns df !! c = Some (StrCol l) -> get_str df c = Ok l.
Proof. intros H. unfold get_str, getitem. by rewrite H. Qed.

Lemma get_num_lookup df c l :
  columns df !! c = Some (NumCol l) -> get_num df c = Ok l.
Proof. intros H. unfold get_num, getitem. by rewrite H. Qed.

Lemma setitem_ok n m c (s : series datetime) :
  series_len s = n ->
  setitem {| index := n; columns := m |} c s
  = Ok {| index := n; columns := <[c := s]> m |}.
Proof. intros H. unfold setitem. cbn [index columns]. by rewrite H, Nat.eqb_refl. Qed.

Lemma with_columns_cons c names col cols m :
  with_columns (c :: names) (col :: cols) m
  = with_columns names cols (<[c := NumCol col]> m).
Proof. reflexivity. Qed.

Lemma with_columns_nil cols m : with_columns [] cols m = m.
Proof. reflexivity. Qed.

Lemma lookup_with_columns_notin names cols m c :
  c ∉ names -> with_columns names cols m !! c = m !! c.
Proof.
  revert cols m. induction names as [|c' names IH]; intros cols m Hc.
  - reflexivity.
  - destruct cols as [|col cols]; [reflexivity|].
    rewrite with_columns_cons, IH by set_solver.
    apply lookup_insert_ne. set_solver.
Qed.

Lemma lookup_with_columns names cols m j c col :
  NoDup names -> names !! j = Some c -> cols !! j = Some col ->
  with_columns names cols m !! c = Some (NumCol col).
Proof.
  revert cols m j. induction names as [|c' names IH]; intros cols m j Hnd Hc Hcol.
  - discriminate.
  - destruct cols as [|col' cols]; [discriminate|].
    rewrite with_columns_cons. apply NoDup_cons in Hnd as [Hnotin Hnd].
    destruct j as [|j]; simpl in Hc, Hcol.
    + injection Hc as ->. injection Hcol as ->.
      rewrite lookup_with_columns_notin by done. apply lookup_insert_eq.
    + by apply IH with j.
Qed.

Lemma get_columns_eq df names cols :
  Forall2 (fun c col => columns df !! c = Some (NumCol col)) names cols ->
  get_columns df names = Ok cols.
Proof.
  induction 1 as [|c col names cols Hc _ IH]; [reflexivity|].
  cbn [get_columns]. rewrite (get_num_lookup _ _ _ Hc), bind_Ok, IH. reflexivity.
Qed.

Lemma get_columns_with_columns n names cols m :
  NoDup names -> length cols = length names ->
  get_columns {| index := n; columns := with_columns names cols m |} names
  = Ok cols.
Proof.
  intros Hnd Hlen. apply get_columns_eq. cbn [columns].
  apply Forall2_same_length_lookup. split; [done|].
  intros j c col Hc Hcol. by apply lookup_with_columns with j.
Qed.

Lemma set_columns_eq n m names cols k :
  Forall (fun col => length col = n) cols ->
  set_columns {| index := n; columns := m |} names
              {| n_samples := k; features := cols |}
  = Ok {| index := n; columns := with_columns names cols m |}.
Proof.
  unfold set_columns. cbn [features].
  revert cols m. induction names as [|c names IH]; intros cols m Hlen.
  - reflexivity.
  - destruct cols as [|col cols]; [reflexivity|].
    apply Forall_cons in Hlen as [Hcol Hlen].
    cbn [zip zip_with for_each]. rewrite setitem_ok by done.
    rewrite bind_Ok, IH by done. reflexivity.
Qed.

(** The loop of lines 56-57. *)
Lemma keyword_loop_eq n m kws ms :
  m !! "message" = Some (StrCol ms) -> length ms = n ->
  for_each kws
    (fun df kw =>
       messages ← get_str df "message";
       setitem df ("contains_" +:+ kw) (NumCol (map (contains kw) messages)))
    {| index := n; columns := m |}
  = Ok {| index := n;
          columns := with_columns (map (fun kw => "contains_" +:+ kw) kws)
                       (map (fun kw => map (contains kw) ms) kws) m |}.
Proof.
  revert m. induction kws as [|kw kws IH]; intros m Hm Hlen.
  - reflexivity.
  - cbn [for_each map]. rewrite (get_str_lookup _ _ ms) by done.
    rewrite bind_Ok, setitem_ok by (cbn [series_len]; by rewrite length_map).
    rewrite bind_Ok, IH; [reflexivity| |done].
    rewrite lookup_insert_ne; [done|]. discriminate.
Qed.

End FrameFacts.

Section Run.

Context {datetime fitted : Type}.
Variable to_datetime : list string -> option (list datetime).
Variable np_sqrt : Q -> Q.
Variable decision_function : fitted -> ndarray -> option (list Q).
Variable fit_predict : fit_predict_t fitted.

Lemma feature_cols_NoDup : NoDup feature_cols.
Proof. compute_done. Qed.

Lemma raw_features_length data : length (raw_features data) = length feature_cols.
Proof. reflexivity. Qed.

Lemma raw_features_rows data :
  Forall (fun col => length col = length data) (raw_features data).
Proof.
  unfold raw_features, keywords, column. cbn [map app].
  repeat constructor; by rewrite !length_map.
Qed.

Lemma scaled_features_rows data :
  Forall (fun col => length col = length data)
         (features (scaled_features np_sqrt data)).
Proof.
  cbn [scaled_features features]. apply Forall_map.
  eapply Forall_impl; [apply raw_features_rows|].
  intros col Hcol. unfold transform. cbn beta. by rewrite length_map.
Qed.

Lemma load_frame_eq data :
  load_frame to_datetime data =
  match to_datetime (column 0 data) with
  | Some parsed =>
      if (length parsed =? length data)%nat
      then Ok (parsed_frame data parsed) else Raise ValueError_length
  | None => Raise ValueError_to_datetime
  end.
Proof.
  unfold load_frame.
  rewrite (get_str_lookup _ _ (column 0 data)) by apply lookup_insert_eq.
  rewrite bind_Ok.
  destruct (to_datetime (column 0 data)) as [parsed|]; [|reflexivity].
  cbn [or_raise]. rewrite bind_Ok. unfold setitem.
  cbn [series_len index frame_of_rows].
  destruct (length parsed =? length data)%nat; reflexivity.
Qed.

Lemma parsed_frame_level data (parsed : list datetime) :
  columns (parsed_frame data parsed) !! "level" = Some (StrCol (column 1 data)).
Proof. reflexivity. Qed.

Lemma parsed_frame_message data (parsed : list datetime) :
  columns (parsed_frame data parsed) !! "message"
  = Some (StrCol (column 2 data)).
Proof. reflexivity. Qed.

Lemma add_features_eq data (parsed : list datetime) :
  add_features (parsed_frame data parsed) =
  Ok {| index := length data;
        columns := with_columns feature_cols (raw_features data)
                     (columns (parsed_frame data parsed)) |}.
Proof.
  unfold add_features.
  rewrite (get_str_lookup _ _ _ (parsed_frame_level data parsed)), bind_Ok.
  unfold parsed_frame at 1.
  rewrite setitem_ok by (cbn [series_len]; unfold column; by rewrite !length_map).
  rewrite bind_Ok.
  rewrite (get_str_lookup _ _ (column 2 data))
    by (cbn [columns]; rewrite lookup_insert_ne by done;
        exact (parsed_frame_message data parsed)).
  rewrite bind_Ok.
  rewrite setitem_ok by (cbn [series_len]; unfold column; by rewrite !length_map).
  rewrite bind_Ok.
  rewrite (keyword_loop_eq _ _ _ (column 2 data)).
  - reflexivity.
  - rewrite !lookup_insert_ne by done.
    exact (parsed_frame_message data parsed).
  - unfold column. by rewrite length_map.
Qed.

Lemma scale_features_eq data (m : gmap string (series datetime)) :
  scale_features np_sqrt
    {| index := length data;
       columns := with_columns feature_cols (raw_features data) m |} =
  if (length data =? 0)%nat then Raise ValueError_no_samples else
  Ok {| index := length data;
        columns :=
          with_columns feature_cols
            (features (scaled_features np_sqrt data))
            (with_columns feature_cols (raw_features data) m) |}.
Proof.
  unfold scale_features, to_array.
  rewrite get_columns_with_columns
    by (apply feature_cols_NoDup || apply raw_features_length).
  rewrite !bind_Ok. unfold fit_transform. cbn [n_samples features index].
  destruct (length data =? 0)%nat; [reflexivity|].
  rewrite bind_Ok.
  apply (set_columns_eq (datetime := datetime)), scaled_features_rows.
Qed.

Lemma to_array_eq n (m : gmap string (series datetime)) cols :
  length cols = length feature_cols ->
  (forall j c col, feature_cols !! j = Some c -> cols !! j = Some col ->
                   m !! c = Some (NumCol col)) ->
  to_array {| index := n; columns := m |} feature_cols
  = Ok {| n_samples := n; features := cols |}.
Proof.
  intros Hlen Hm. unfold to_array.
  rewrite (get_columns_eq _ _ cols); [reflexivity|].
  apply Forall2_same_length_lookup. split; [done|].
  intros j c col Hc Hcol. by apply Hm with j.
Qed.

Lemma fit_and_score_eq data (m0 : gmap string (series datetime)) :
  let m := with_columns feature_cols
             (features (scaled_features np_sqrt data)) m0 in
  fit_and_score decision_function fit_predict
    {| index := length data; columns := m |} =
  match fit_predict model (scaled_features np_sqrt data) with
  | None => Raise ValueError_estimator
  | Some (f, anomaly) =>
    if (length anomaly =? length data)%nat then
      match decision_function f (scaled_features np_sqrt data) with
      | None => Raise ValueError_estimator
      | Some score =>
        if (length score =? length data)%nat then
          Ok {| index := length data;
                columns :=
                  <["score" := NumCol (map Some score)]>
                    (<["anomaly" :=
                         NumCol (map (fun z => Some (inject_Z z)) anomaly)]>
                       m) |}
        else Raise ValueError_length
      end
    else Raise ValueError_length
  end.
Proof.
  intros m. unfold fit_and_score.
  rewrite (to_array_eq _ _ (features (scaled_features np_sqrt data)));
    [|reflexivity|].
  2:{ intros j c col Hc Hcol. subst m.
      eapply lookup_with_columns; eauto using feature_cols_NoDup. }
  rewrite bind_Ok. change {| n_samples := length data;
                features := features (scaled_features np_sqrt data) |}
    with (scaled_features np_sqrt data).
  destruct (fit_predict model (scaled_features np_sqrt data))
    as [[f anomaly]|]; [|reflexivity].
  cbn [or_raise]. rewrite bind_Ok. unfold setitem at 2.
  cbn [series_len index]. rewrite length_map.
  destruct (length anomaly =? length data)%nat; [|reflexivity].
  rewrite bind_Ok.
  rewrite (to_array_eq _ _ (features (scaled_features np_sqrt data)));
    [|reflexivity|].
  2:{ intros j c col Hc Hcol. subst m.
      rewrite lookup_insert_ne.
      - eapply lookup_with_columns; eauto using feature_cols_NoDup.
      - intros <-. apply list_elem_of_lookup_2 in Hc. revert Hc. compute_done. }
  rewrite bind_Ok. change {| n_samples := length data;
                features := features (scaled_features np_sqrt data) |}
    with (scaled_features np_sqrt data).
  destruct (decision_function f (scaled_features np_sqrt data))
    as [score|]; [|reflexivity].
  cbn [or_raise]. rewrite bind_Ok. unfold setitem.
  cbn [series_len index columns]. rewrite length_map.
  destruct (length score =? length data)%nat; reflexivity.
Qed.

Lemma apply_threshold_eq n (m : gmap string (series datetime)) scores :
  length scores = n ->
  apply_threshold {| index := n; columns := <["score" := NumCol scores]> m |}
  = Ok {| index := n;
          columns :=
            <["is_anomaly" :=
                LabelCol (map (classify (quantile (5 # 100) scores)) scores)]>
              (<["score" := NumCol scores]> m) |}.
Proof.
  intros H. unfold apply_threshold.
  rewrite (get_num_lookup _ _ scores) by apply lookup_insert_eq.
  rewrite bind_Ok. apply setitem_ok. cbn [series_len]. by rewrite length_map.
Qed.

(** The whole run as one case analysis on what the collaborators do. *)
Lemma score_records_eq data :
  score_records to_datetime np_sqrt decision_function fit_predict data =
  match to_datetime (column 0 data) with
  | None => Raise ValueError_to_datetime
  | Some parsed =>
    if (length parsed =? length data)%nat then
      if (length data =? 0)%nat then Raise ValueError_no_samples else
      match fit_predict model (scaled_features np_sqrt data) with
      | None => Raise ValueError_estimator
      | Some (f, anomaly) =>
        if (length anomaly =? length data)%nat then
          match decision_function f (scaled_features np_sqrt data) with
          | None => Raise ValueError_estimator
          | Some score =>
            if (length score =? length data)%nat
            then Ok (final_frame np_sqrt data parsed anomaly score)
            else Raise ValueError_length
          end
        else Raise ValueError_length
      end
    else Raise ValueError_length
  end.
Proof.
  unfold score_records. rewrite load_frame_eq.
  destruct (to_datetime (column 0 data)) as [parsed|]; [|reflexivity].
  destruct (length parsed =? length data)%nat; [|reflexivity].
  rewrite bind_Ok, add_features_eq, bind_Ok, scale_features_eq.
  destruct (length data =? 0)%nat; [reflexivity|].
  rewrite bind_Ok, fit_and_score_eq.
  destruct (fit_predict model (scaled_features np_sqrt data))
    as [[f anomaly]|]; [|reflexivity].
  destruct (length anomaly =? length data)%nat; [|reflexivity].
  destruct (decision_function f (scaled_features np_sqrt data))
    as [score|]; [|reflexivity].
  destruct (length score =? length data)%nat eqn:Hlen; [|reflexivity].
  apply Nat.eqb_eq in Hlen.
  rewrite bind_Ok, apply_threshold_eq by (by rewrite length_map).
  reflexivity.
Qed.

(** A run whose collaborators return succeeds with the frame written
    out in [final_frame]. *)
Lemma score_records_ok data parsed anomaly score :
  data <> [] ->
  collaborators_return to_datetime np_sqrt decision_function fit_predict
    data parsed anomaly score ->
  score_records to_datetime np_sqrt decision_function fit_predict data
  = Ok (final_frame np_sqrt data parsed anomaly score).
Proof.
  intros Hne (Hts & Hlen & f & Hfit & Hlen1 & Hdec & Hlen2).
  rewrite score_records_eq, Hts, Hfit, Hdec.
  apply Nat.eqb_eq in Hlen, Hlen1, Hlen2. rewrite Hlen, Hlen1, Hlen2.
  destruct data; [done | reflexivity].
Qed.

(** Conversely, a run that returns a frame had collaborators that
    returned, on at least one row, and the frame is [final_frame]. *)
Lemma score_records_inv data df :
  score_records to_datetime np_sqrt decision_function fit_predict data
  = Ok df ->
  data <> []
  /\ exists parsed anomaly score,
       collaborators_return to_datetime np_sqrt decision_function
         fit_predict data parsed anomaly score
       /\ df = final_frame np_sqrt data parsed anomaly score.
Proof.
  rewrite score_records_eq.
  destruct (to_datetime (column 0 data)) as [parsed|] eqn:Hts; [|done].
  destruct (length parsed =? length data)%nat eqn:Hlen; [|done].
  destruct (length data =? 0)%nat eqn:E; [done|].
  destruct (fit_predict model (scaled_features np_sqrt data))
    as [[f anomaly]|] eqn:Hfit; [|done].
  destruct (length anomaly =? length data)%nat eqn:Hlen1; [|done].
  destruct (decision_function f (scaled_features np_sqrt data))
    as [score|] eqn:Hdec; [|done].
  destruct (length score =? length data)%nat eqn:Hlen2; [|done].
  apply Nat.eqb_eq in Hlen, Hlen1, Hlen2.
  intros [= <-]. split.
  { intros ->. discriminate. }
  exists parsed, anomaly, score. split; [|reflexivity].
  repeat split; try done. exists f. done.
Qed.

End Run.

(** ** Strings *)

Lemma app_String c (a b : string) : String c a +:+ b = String c (a +:+ b).
Proof. reflexivity. Qed.

Lemma no_space_not_blank c s :
  no_space (String c s) = true -> Ascii.eqb c " " = false.
Proof.
  cbn [no_space]. intros [Hc _]%andb_prop.
  destruct (Ascii.eqb_spec c " ") as [->|]; [discriminate | reflexivity].
Qed.

Lemma split_zero s : Py.split s 0 = [s].
Proof. by destruct s. Qed.

Lemma split_nonempty s n : Py.split s n <> [].
Proof.
  revert n. induction s as [|c s IH]; intros n; [done|].
  cbn [Py.split]. destruct n as [|n]; [done|].
  destruct (Ascii.eqb c " "); [done|].
  by destruct (Py.split s (S n)).
Qed.

(** Splitting cuts after a leading piece that holds no space. *)
Lemma split_token a rest n :
  no_space a = true ->
  Py.split (a +:+ " " +:+ rest) (S n) = a :: Py.split rest n.
Proof.
  induction a as [|c a IH]; intros Ha.
  - reflexivity.
  - rewrite app_String. cbn [Py.split].
    rewrite (no_space_not_blank _ _ Ha).
    cbn [no_space] in Ha. apply andb_prop in Ha as [_ Ha].
    by rewrite IH.
Qed.

Lemma lstrip_token_app a b :
  is_token a -> Py.lstrip (a +:+ b) = a +:+ b.
Proof.
  intros [Hne Ha]. destruct a as [|c a]; [done|].
  cbn [no_space] in Ha. apply andb_prop in Ha as [Hc _].
  rewrite app_String. cbn [Py.lstrip].
  by destruct (Py.isspace c).
Qed.

Lemma app_empty (a b : string) : a +:+ b = "" -> b = "".
Proof. destruct a; [done | discriminate]. Qed.

Lemma rstrip_app a b :
  b <> "" -> Py.rstrip b = b -> Py.rstrip (a +:+ b) = a +:+ b.
Proof.
  intros Hne Hb. induction a as [|c a IH]; [done|].
  rewrite app_String. cbn [Py.rstrip]. rewrite IH.
  destruct (a +:+ b) eqn:E; [|reflexivity].
  by apply app_empty in E.
Qed.

Lemma app_assoc_string (a b c : string) : (a +:+ b) +:+ c = a +:+ b +:+ c.
Proof. induction a as [|x a IH]; [done|]. by rewrite !app_String, IH. Qed.

(** A line that starts with a token and ends with a message without
    trailing whitespace is left alone by [strip]. *)
Lemma strip_line date rest message :
  is_token date -> message <> "" -> Py.rstrip message = message ->
  Py.strip (date +:+ rest +:+ message) = date +:+ rest +:+ message.
Proof.
  intros Hd Hne Hm. unfold Py.strip.
  rewrite lstrip_token_app by done.
  rewrite <- app_assoc_string. by apply rstrip_app.
Qed.

(** ** The parser *)

Lemma parse_step_app data log : parse_step data log = data ++ parse_step [] log.
Proof.
  unfold parse_step.
  destruct (length (Py.split (Py.strip log) 3) <? 4)%nat.
  - by rewrite app_nil_r.
  - reflexivity.
Qed.

Lemma fold_parse_step logs data :
  fold_left parse_step logs data = data ++ parse_logs logs.
Proof.
  unfold parse_logs. revert data.
  induction logs as [|log logs IH]; intros data.
  - by rewrite app_nil_r.
  - cbn [fold_left]. rewrite IH, (IH (parse_step [] log)), parse_step_app.
    by rewrite app_assoc.
Qed.

Lemma parse_logs_cons log logs :
  parse_logs (log :: logs) = parse_step [] log ++ parse_logs logs.
Proof. unfold parse_logs at 1. cbn [fold_left]. apply fold_parse_step. Qed.

Lemma parse_logs_app logs1 logs2 :
  parse_logs (logs1 ++ logs2) = parse_logs logs1 ++ parse_logs logs2.
Proof.
  induction logs1 as [|log logs1 IH]; [done|].
  rewrite <- app_comm_cons, !parse_logs_cons, IH. by rewrite app_assoc.
Qed.

(** Every parsed row has the three cells timestamp, level, message. *)
Lemma parse_logs_rows logs :
  Forall (fun row => exists ts level message, row = [ts; level; message])
         (parse_logs logs).
Proof.
  induction logs as [|log logs IH]; [constructor|].
  rewrite parse_logs_cons. apply Forall_app. split; [|done].
  unfold parse_step. destruct (_ <? _)%nat; [constructor|].
  repeat constructor. eauto.
Qed.

(** ** Case-insensitive search *)

Lemma lower_app a b : Py.lower (a +:+ b) = Py.lower a +:+ Py.lower b.
Proof.
  induction a as [|c a IH]; [done|].
  rewrite app_String. cbn [Py.lower]. by rewrite IH.
Qed.

Lemma match_ignorecase_spec pat s :
  Py.match_ignorecase pat s = true
  <-> exists mid suf, s = mid +:+ suf /\ Py.lower mid = Py.lower pat.
Proof.
  revert s. induction pat as [|p pat IH]; intros s.
  - split; [|done]. intros _. by exists "", s.
  - destruct s as [|c s]; cbn [Py.match_ignorecase].
    + split; [done|]. intros (mid & suf & Hs & Hmid).
      destruct mid; discriminate.
    + rewrite andb_true_iff, IH. split.
      * intros [Hc (mid & suf & -> & Hmid)].
        exists (String c mid), suf. split; [done|].
        cbn [Py.lower]. apply Ascii.eqb_eq in Hc. by rewrite Hc, Hmid.
      * intros (mid & suf & Hs & Hmid).
        destruct mid as [|c' mid]; [discriminate|].
        injection Hs as -> ->. cbn [Py.lower] in Hmid.
        injection Hmid as Hc Hmid. split; [by apply Ascii.eqb_eq|].
        by exists mid, suf.
Qed.

Lemma search_ignorecase_spec kw s :
  Py.search_ignorecase kw s = true <-> occurs_ignoring_case kw s.
Proof.
  unfold occurs_ignoring_case. induction s as [|c s IH].
  - cbn [Py.search_ignorecase]. rewrite orb_false_r, match_ignorecase_spec.
    split.
    + intros (mid & suf & Hs & Hmid). by exists "", mid, suf.
    + intros (pre & mid & suf & Hs & Hmid).
      destruct pre; [|discriminate]. by exists mid, suf.
  - cbn [Py.search_ignorecase]. rewrite orb_true_iff, match_ignorecase_spec, IH.
    split.
    + intros [(mid & suf & Hs & Hmid) | (pre & mid & suf & Hs & Hmid)].
      * by exists "", mid, suf.
      * exists (String c pre), mid, suf. by rewrite Hs.
    + intros (pre & mid & suf & Hs & Hmid).
      destruct pre as [|c' pre].
      * left. by exists mid, suf.
      * right. injection Hs as -> ->. by exists pre, mid, suf.
Qed.


(** ** Rationals: sums of squares, sorting *)

Lemma Qsquare_nonneg (x : Q) : (0 <= x * x)%Q.
Proof. nra. Qed.

Lemma Qdiv_zero (s n : Q) : ~ n == 0 -> (s / n == 0)%Q -> s == 0.
Proof.
  intros Hn H. assert (s == s / n * n)%Q as -> by (by field).
  rewrite H. ring.
Qed.

Lemma Qsum_squares_nonneg (m : Q) (l : list Q) :
  (0 <= Qsum (map (fun x => (x - m) * (x - m))%Q l))%Q.
Proof.
  induction l as [|x l IH]; cbn [map Qsum fold_right].
  - apply Qle_refl.
  - fold (Qsum (map (fun x => (x - m) * (x - m))%Q l)).
    pose proof (Qsquare_nonneg (x - m)%Q). lra.
Qed.

Lemma Qsum_squares_zero (m : Q) (l : list Q) :
  Qsum (map (fun x => (x - m) * (x - m))%Q l) == 0 ->
  Forall (fun x => x == m) l.
Proof.
  induction l as [|x l IH]; cbn [map Qsum fold_right]; [constructor|].
  fold (Qsum (map (fun x => (x - m) * (x - m))%Q l)).
  intros H. pose proof (Qsquare_nonneg (x - m)%Q) as Hx.
  pose proof (Qsum_squares_nonneg m l) as Hl.
  assert ((x - m) * (x - m) == 0)%Q as Hsq by lra.
  constructor.
  - apply Qmult_integral in Hsq. lra.
  - apply IH. lra.
Qed.

Section ScalerFacts.

Variable np_sqrt : Q -> Q.

(** Zero variance means that every cell that is not NaN equals the
    mean. *)
Lemma var_zero_cells col :
  var_ col == 0 -> Forall (fun x => x == mean_ col) (present col).
Proof.
  unfold var_. intros H. apply Qsum_squares_zero.
  destruct (present col) as [|x l] eqn:E; [reflexivity|].
  assert (~ n_samples_seen_ col == 0) as Hn.
  { unfold n_samples_seen_. rewrite E. cbn [length].
    rewrite Nat2Z.inj_succ. unfold Qeq. cbn. lia. }
  by apply Qdiv_zero with (n_samples_seen_ col).
Qed.

Lemma scale_zero_variance col : var_ col == 0 -> scale_ np_sqrt col = 1%Q.
Proof.
  intros H. unfold scale_. apply Qeq_bool_iff in H. by rewrite H.
Qed.

Lemma scale_positive_variance col :
  ~ var_ col == 0 -> scale_ np_sqrt col = np_sqrt (var_ col).
Proof.
  intros H. unfold scale_. destruct (Qeq_bool (var_ col) 0) eqn:E; [|done].
  by apply Qeq_bool_iff in E.
Qed.

Lemma elem_of_present col i x :
  col !! i = Some (Some x) -> x ∈ present col.
Proof.
  intros H. unfold present. apply list_elem_of_omap.
  exists (Some x). split; [|done]. by eapply list_elem_of_lookup_2.
Qed.

(** The scaled cells of a zero-variance feature: NaN stays NaN, every
    other cell becomes 0. *)
Lemma transform_zero_variance col i x :
  var_ col == 0 -> col !! i = Some (Some x) ->
  exists q, transform np_sqrt col !! i = Some (Some q) /\ q == 0.
Proof.
  intros Hvar Hx. unfold transform.
  rewrite list_lookup_fmap, Hx. cbn [fmap option_fmap option_map].
  eexists. split; [reflexivity|].
  rewrite (scale_zero_variance _ Hvar).
  pose proof (var_zero_cells col Hvar) as Hall.
  rewrite Forall_forall in Hall.
  specialize (Hall x (elem_of_present _ _ _ Hx)).
  rewrite Hall. field.
Qed.

(** A feature observed on a single row has zero variance. *)
Lemma var_single (c : option Q) : var_ [c] == 0.
Proof.
  destruct c as [x|].
  - unfold var_, mean_, n_samples_seen_, present. cbn. field.
  - reflexivity.
Qed.

End ScalerFacts.

Lemma present_Some (l : list Q) : present (map Some l) = l.
Proof.
  unfold present. induction l as [|x l IH]; [done|].
  cbn. by rewrite IH.
Qed.

Lemma insert_sorted_length x l : length (insert_sorted x l) = S (length l).
Proof.
  induction l as [|y l IH]; [done|].
  cbn [insert_sorted]. destruct (Qle_bool x y); cbn [length]; by rewrite ?IH.
Qed.

Lemma sort_length l : length (sort l) = length l.
Proof.
  induction l as [|x l IH]; [done|].
  cbn [sort fold_right]. fold (sort l). by rewrite insert_sorted_length, IH.
Qed.

(** The quantile of a series without NaN and with at least one value is a
    number. *)
Lemma quantile_defined q (score : list Q) :
  score <> [] -> exists t, quantile q (map Some score) = Some t.
Proof.
  intros Hne. unfold quantile. rewrite present_Some.
  destruct (sort score) eqn:E; [|eauto].
  apply (f_equal length) in E. rewrite sort_length in E.
  destruct score; [done | discriminate].
Qed.

Lemma classify_anomaly t s : classify (Some t) (Some s) = Anomaly <-> (s < t)%Q.
Proof.
  cbn [classify]. rewrite Qlt_alt. destruct (s ?= t)%Q; split; done.
Qed.

Lemma classify_normal t s :
  classify (Some t) (Some s) = Normal <-> ~ (s < t)%Q.
Proof.
  rewrite <- classify_anomaly. destruct (classify (Some t) (Some s)); split; done.
Qed.

(** ** The primitives on concrete inputs *)

Example strip_sample_line :
  Py.strip ("  2024-09-10 10:22:11 INFO Batch job 001 completed " +:+ newline)
  = "2024-09-10 10:22:11 INFO Batch job 001 completed".
Proof. reflexivity. Qed.

Example split_keeps_remainder :
  Py.split "2024-09-10 10:22:11 INFO Batch job 001 completed" 3
  = ["2024-09-10"; "10:22:11"; "INFO"; "Batch job 001 completed"].
Proof. reflexivity. Qed.

Example split_keeps_empty_pieces :
  Py.split "a  b c" 3 = ["a"; ""; "b"; "c"].
Proof. reflexivity. Qed.

Example split_short_line : Py.split "10:22:11 INFO done" 3
                           = ["10:22:11"; "INFO"; "done"].
Proof. reflexivity. Qed.

Example parse_sample_file :
  parse_logs sample_lines
  = map (fun log => match Py.split log 3 with
                    | [d; t; l; m] => [d +:+ " " +:+ t; l; m]
                    | _ => []
                    end) sample_logs.
Proof. reflexivity. Qed.

Example search_ignores_case :
  Py.search_ignorecase "fail" "Failed to connect to external API" = true
  /\ Py.search_ignorecase "error" "Failed to connect to external API" = false
  /\ Py.search_ignorecase "timeout" "Database connection TIMEOUT" = true.
Proof. repeat split. Qed.

Example quantile_interpolates :
  Qred <$> quantile (5 # 100) [Some 1%Q; Some 3%Q; Some 2%Q] = Some (11 # 10)
  /\ Qred <$> quantile (1 # 2) [Some 1%Q; None; Some 2%Q] = Some (3 # 2)
  /\ Qred <$> quantile (5 # 100) [Some 7%Q] = Some 7%Q
  /\ quantile (5 # 100) [] = None.
Proof. vm_compute. repeat split. Qed.

Example single_score_is_normal :
  classify (quantile (5 # 100) [Some 7%Q]) (Some 7%Q) = Normal.
Proof. reflexivity. Qed.

(** ** Missing values on their way to the estimator *)

(** The scaler keeps a NaN cell as it is. *)
Lemma transform_keeps_nan (np_sqrt : Q -> Q) (col : list (option Q)) i :
  col !! i = Some None -> transform np_sqrt col !! i = Some None.
Proof.
  intros H. unfold transform. by rewrite list_lookup_fmap, H.
Qed.

(** A row whose level is outside the table reaches the estimator with a
    NaN in its first feature: nothing between lines 49 and 68 drops the
    row, fills the cell or raises. *)
Lemma unmapped_level_reaches_estimator (np_sqrt : Q -> Q)
    (data : list (list string)) i ts level message :
  data !! i = Some [ts; level; message] ->
  level_mapping !! level = None ->
  exists col,
    features (scaled_features np_sqrt data) !! 0%nat = Some col
    /\ col !! i = Some None.
Proof.
  intros Hrow Hlevel. eexists. split; [reflexivity|].
  apply transform_keeps_nan. unfold column.
  rewrite !list_lookup_fmap, Hrow. cbn [fmap option_fmap option_map nth].
  unfold level_score. by rewrite Hlevel.
Qed.

(** ** Claims about the parser *)

Lemma short_line_dropped line :
  (length (Py.split (Py.strip line) 3) < 4)%nat -> parse_step [] line = [].
Proof.
  intros H. unfold parse_step. apply Nat.ltb_lt in H. by rewrite H.
Qed.

(** C6 (as amended). A line whose stripped text splits at single spaces
    into fewer than four pieces yields no row, and the rows of the lines
    around it are those of the batch without it, in the same order. *)
Theorem malformed_line_dropped (before after : list string) (line : string) :
  (length (Py.split (Py.strip line) 3) < 4)%nat ->
  parse_logs [line] = []
  /\ parse_logs (before ++ line :: after)
     = parse_logs before ++ parse_logs after
  /\ parse_logs (before ++ line :: after) = parse_logs (before ++ after).
Proof.
  intros H. pose proof (short_line_dropped line H) as Hdrop.
  assert (parse_logs [line] = []) as Hone.
  { by rewrite parse_logs_cons, Hdrop. }
  split; [done|].
  rewrite !parse_logs_app, parse_logs_cons, Hdrop. done.
Qed.

Lemma malformed_line_dropped_witness :
  parse_logs ["started"] = []
  /\ parse_logs (sample_lines ++ "started" :: sample_lines)
     = parse_logs sample_lines ++ parse_logs sample_lines
  /\ parse_logs (sample_lines ++ "started" :: sample_lines)
     = parse_logs (sample_lines ++ sample_lines).
Proof.
  apply (malformed_line_dropped sample_lines sample_lines "started").
  vm_compute. lia.
Defined.

(** C6 as stated fails: this line has three whitespace-separated segments,
    yet the two adjacent spaces make four pieces and a row is produced. *)
Lemma double_space_line_kept :
  whitespace_segments "2024-09-10  10:15:23 INFO"
  = ["2024-09-10"; "10:15:23"; "INFO"]
  /\ (length (whitespace_segments "2024-09-10  10:15:23 INFO") < 4)%nat
  /\ parse_logs ["2024-09-10  10:15:23 INFO"]
     = [["2024-09-10 "; "10:15:23"; "INFO"]].
Proof. vm_compute. repeat split; lia. Qed.

(** C7 (as amended). For a line made of three tokens and a message that is
    not empty and has whitespace neither in front nor at its end, the
    parser returns exactly the level and the message, the message being
    everything after the third token; rebuilding the line from the row gives
    the line back. *)
Theorem parse_roundtrip (date time level message : string) :
  is_token date -> is_token time -> is_token level ->
  message <> "" ->
  Py.lstrip message = message -> Py.rstrip message = message ->
  let line := date +:+ " " +:+ time +:+ " " +:+ level +:+ " " +:+ message in
  parse_logs [line] = [[date +:+ " " +:+ time; level; message]]
  /\ reconstruct [date +:+ " " +:+ time; level; message] = line.
Proof.
  intros Hd [_ Ht] [_ Hl] Hne _ Hr line. split.
  - rewrite parse_logs_cons. unfold parse_logs, parse_step. cbn [fold_left].
    rewrite app_nil_r. subst line.
    replace (date +:+ " " +:+ time +:+ " " +:+ level +:+ " " +:+ message)
      with (date +:+ (" " +:+ time +:+ " " +:+ level +:+ " ") +:+ message)
      by (by rewrite !app_assoc_string).
    rewrite strip_line by done.
    rewrite !app_assoc_string.
    destruct Hd as [_ Hd].
    rewrite (split_token date), (split_token time), (split_token level) by done.
    rewrite split_zero. reflexivity.
  - unfold reconstruct. cbn [nth]. subst line. by rewrite !app_assoc_string.
Qed.

Lemma parse_roundtrip_witness :
  parse_logs ["2024-09-10 10:17:12 WARNING Memory usage at 85%"]
  = [["2024-09-10 10:17:12"; "WARNING"; "Memory usage at 85%"]]
  /\ reconstruct ["2024-09-10 10:17:12"; "WARNING"; "Memory usage at 85%"]
     = "2024-09-10 10:17:12 WARNING Memory usage at 85%".
Proof.
  apply (parse_roundtrip "2024-09-10" "10:17:12" "WARNING"
           "Memory usage at 85%");
    try (split; [discriminate | reflexivity]);
    try discriminate; reflexivity.
Defined.

(** C7 as stated fails: the message below has no leading whitespace, but
    its trailing space is removed by [strip] before the line is split. *)
Lemma trailing_space_not_preserved :
  is_token "2024-09-10" /\ is_token "10:22:11" /\ is_token "INFO"
  /\ Py.lstrip "job done " = "job done "
  /\ parse_logs ["2024-09-10 10:22:11 INFO job done "]
     = [["2024-09-10 10:22:11"; "INFO"; "job done"]]
  /\ "job done" <> "job done ".
Proof.
  repeat split; try discriminate; reflexivity.
Qed.

(** ** The returned frame, column by column *)

Section FinalFrame.

Context {datetime : Type}.
Variable np_sqrt : Q -> Q.
Variables (data : list (list string)) (parsed : list datetime)
          (anomaly : list Z) (score : list Q).

Let df : DataFrame datetime := final_frame np_sqrt data parsed anomaly score.

Lemma final_frame_index : index df = length data.
Proof. reflexivity. Qed.

Lemma final_frame_is_anomaly :
  columns df !! "is_anomaly"
  = Some (LabelCol (map (classify (quantile (5 # 100) (map Some score)))
                        (map Some score))).
Proof. apply lookup_insert_eq. Qed.

Lemma final_frame_score :
  columns df !! "score" = Some (NumCol (map Some score)).
Proof.
  subst df. cbn [final_frame columns].
  rewrite lookup_insert_ne by done. apply lookup_insert_eq.
Qed.

(** A feature column holds the scaled values of that feature. *)
Lemma final_frame_feature j c raw :
  feature_cols !! j = Some c -> raw_features data !! j = Some raw ->
  columns df !! c = Some (NumCol (transform np_sqrt raw)).
Proof.
  intros Hc Hraw. subst df. cbn [final_frame columns].
  assert (c ∈ feature_cols) as Hin by (by eapply list_elem_of_lookup_2).
  rewrite !lookup_insert_ne
    by (intros <-; revert Hin; compute_done).
  eapply lookup_with_columns; eauto using feature_cols_NoDup.
  cbn [scaled_features features]. by rewrite list_lookup_fmap, Hraw.
Qed.

(** The scoring stages do not touch the columns of the parsed frame. *)
Lemma final_frame_parsed c :
  c ∈ ["timestamp"; "level"; "message"] ->
  columns df !! c = columns (parsed_frame data parsed) !! c.
Proof.
  intros Hc. subst df. cbn [final_frame columns].
  assert (c = "timestamp" \/ c = "level" \/ c = "message") as Hcases.
  { rewrite !elem_of_cons in Hc. rewrite elem_of_nil in Hc. tauto. }
  clear Hc. destruct Hcases as [-> | [-> | ->]];
    rewrite !lookup_insert_ne by done;
    rewrite !lookup_with_columns_notin by compute_done;
    reflexivity.
Qed.

End FinalFrame.

(** ** Claims about feature derivation *)

(** The level table, case by case. *)
Lemma level_score_cases level :
  level_score level =
  if decide (level = "INFO") then Some 1%Q
  else if decide (level = "WARNING") then Some 2%Q
  else if decide (level = "ERROR") then Some 3%Q
  else if decide (level = "CRITICAL") then Some 4%Q
  else None.
Proof.
  unfold level_score, level_mapping.
  repeat case_decide; subst; try reflexivity.
  rewrite !lookup_insert_ne by done.
  rewrite lookup_singleton_ne by done. reflexivity.
Qed.

Lemma contains_indicator kw message :
  exists v, contains kw message = Some v /\ indicator kw message v.
Proof.
  unfold contains, indicator.
  destruct (Py.search_ignorecase kw message) eqn:E; eexists;
    (split; [reflexivity|]).
  - left. split; [by apply search_ignorecase_spec | reflexivity].
  - right. split; [|reflexivity].
    intros H%search_ignorecase_spec. congruence.
Qed.

Section Features.

Context {datetime : Type}.
Variable to_datetime : list string -> option (list datetime).

(** C3. After the feature stage the array of feature columns has, for
    every parsed row, the five cells level_score, message_length,
    contains_error, contains_fail, contains_timeout, in this order:
    the level rank 1..4 or NaN for a level outside the table, the number
    of characters of the message, and for each keyword 1 when it occurs
    in the message with case ignored and 0 otherwise. *)
Theorem feature_vector_derivation (logs : list string)
    (df0 : DataFrame datetime) :
  load_frame to_datetime (parse_logs logs) = Ok df0 ->
  exists df1 X,
    add_features df0 = Ok df1
    /\ to_array df1 feature_cols = Ok X
    /\ feature_cols = ["level_score"; "message_length"; "contains_error";
                       "contains_fail"; "contains_timeout"]
    /\ n_samples X = length (parse_logs logs)
    /\ forall i ts level message,
         parse_logs logs !! i = Some [ts; level; message] ->
         exists rank c_error c_fail c_timeout,
           feature_vector X i
           = Some [rank; Some (inject_Z (Z.of_nat (String.length message)));
                   Some c_error; Some c_fail; Some c_timeout]
           /\ (level = "INFO" -> rank = Some 1%Q)
           /\ (level = "WARNING" -> rank = Some 2%Q)
           /\ (level = "ERROR" -> rank = Some 3%Q)
           /\ (level = "CRITICAL" -> rank = Some 4%Q)
           /\ (level ∉ ["INFO"; "WARNING"; "ERROR"; "CRITICAL"] ->
               rank = None)
           /\ indicator "error" message c_error
           /\ indicator "fail" message c_fail
           /\ indicator "timeout" message c_timeout.
Proof.
  rewrite load_frame_eq.
  destruct (to_datetime _) as [parsed|]; [|done].
  destruct (_ =? _)%nat; [|done]. intros [= <-].
  set (data := parse_logs logs).
  eexists _, {| n_samples := length data; features := raw_features data |}.
  split; [apply add_features_eq|].
  split.
  { apply to_array_eq; [reflexivity|]. intros j c col Hc Hcol.
    eapply lookup_with_columns; eauto using feature_cols_NoDup. }
  split; [reflexivity|]. split; [reflexivity|].
  intros i ts level message Hrow.
  destruct (contains_indicator "error" message) as (ce & Hce & Ie).
  destruct (contains_indicator "fail" message) as (cf & Hcf & If).
  destruct (contains_indicator "timeout" message) as (ct & Hct & It).
  exists (level_score level), ce, cf, ct. split.
  { unfold feature_vector, raw_features, keywords, column.
    cbn [features map app mapM].
    rewrite !list_lookup_fmap, Hrow. cbn [fmap option_fmap option_map nth].
    rewrite Hce, Hcf, Hct. reflexivity. }
  rewrite level_score_cases.
  repeat split; try done; try (intros ->; reflexivity).
  intros Hout. repeat case_decide; subst; try reflexivity;
    exfalso; apply Hout; set_solver.
Qed.

End Features.

(** ** Claims about scoring *)

Section Scoring.

Context {datetime fitted : Type}.
Variable to_datetime : list string -> option (list datetime).
Variable np_sqrt : Q -> Q.
Variable decision_function : fitted -> ndarray -> option (list Q).

Abbreviation run := (analyze_logs to_datetime np_sqrt decision_function).
Abbreviation returned :=
  (collaborators_return to_datetime np_sqrt decision_function).

(** C1. In the frame a run returns, the threshold is the 0.05 quantile of
    the score column, a row is labelled anomalous exactly when its score
    is strictly below the threshold, and a score equal to the threshold is
    labelled normal. *)
Theorem threshold_classification (fit_predict : fit_predict_t fitted)
    (logs : list string) (df : DataFrame datetime) :
  run fit_predict logs = Ok df ->
  exists (score : list Q) (labels : list label) (threshold : Q),
    columns df !! "score" = Some (NumCol (map Some score))
    /\ columns df !! "is_anomaly" = Some (LabelCol labels)
    /\ quantile (5 # 100) (map Some score) = Some threshold
    /\ length labels = length score
    /\ forall i s, score !! i = Some s ->
         (labels !! i = Some Anomaly <-> (s < threshold)%Q)
         /\ (labels !! i = Some Normal <-> ~ (s < threshold)%Q)
         /\ (s == threshold -> labels !! i = Some Normal).
Proof.
  intros Hrun. apply score_records_inv in Hrun
    as (Hne & parsed & anomaly & score & Hret & ->).
  destruct Hret as (_ & _ & f & _ & _ & _ & Hlen).
  destruct (quantile_defined (5 # 100) score) as [t Ht].
  { intros ->. by destruct (parse_logs logs). }
  exists score, (map (classify (Some t)) (map Some score)), t.
  split; [apply final_frame_score|].
  split; [rewrite <- Ht; apply final_frame_is_anomaly|].
  split; [done|]. split; [by rewrite !length_map|].
  intros i s Hs. rewrite !list_lookup_fmap, Hs. cbn [fmap option_fmap option_map].
  pose proof (classify_anomaly t s) as Ha.
  pose proof (classify_normal t s) as Hn.
  set (l := classify (Some t) (Some s)) in *.
  split; [|split].
  - rewrite <- Ha. split; [by intros [= ->] | by intros ->].
  - rewrite <- Hn. split; [by intros [= ->] | by intros ->].
  - intros Heq. f_equal. apply Hn. intros Hlt.
    rewrite Heq in Hlt. by apply Qlt_irrefl in Hlt.
Qed.


(** C5. When no line yields a row, no run returns a frame, whatever the
    fitting procedure; and as [to_datetime] accepts the empty column, the
    run ends with the error of an array without samples, raised by the
    scaler before any model is fitted. *)
Theorem empty_batch_fails (logs : list string) :
  parse_logs logs = [] ->
  (forall fit_predict df, run fit_predict logs <> Ok df)
  /\ (to_datetime [] = Some [] ->
      forall fit_predict, run fit_predict logs = Raise ValueError_no_samples).
Proof.
  intros Hempty. split.
  - intros fit_predict df Hrun.
    apply score_records_inv in Hrun as [Hne _]. done.
  - intros Hts fit_predict. unfold analyze_logs.
    rewrite score_records_eq, Hempty. cbn [column map]. by rewrite Hts.
Qed.

(** C9. The columns [timestamp], [level] and [message] of the returned
    frame are those of the frame the parsing stage produced (lines
    44-45): the level and message texts of the parser, row by row. *)
Theorem record_fields_preserved (fit_predict : fit_predict_t fitted)
    (logs : list string) (df : DataFrame datetime) :
  run fit_predict logs = Ok df ->
  exists df0 parsed,
    load_frame to_datetime (parse_logs logs) = Ok df0
    /\ columns df0 !! "timestamp" = Some (TimeCol parsed)
    /\ columns df !! "timestamp" = Some (TimeCol parsed)
    /\ columns df !! "level" = Some (StrCol (column 1 (parse_logs logs)))
    /\ columns df !! "message" = Some (StrCol (column 2 (parse_logs logs)))
    /\ forall c, c ∈ ["timestamp"; "level"; "message"] ->
                 columns df !! c = columns df0 !! c.
Proof.
  intros Hrun. apply score_records_inv in Hrun
    as (Hne & parsed & anomaly & score & Hret & ->).
  destruct Hret as (Hts & Hlen & _).
  exists (parsed_frame (parse_logs logs) parsed), parsed.
  split.
  { rewrite load_frame_eq, Hts. apply Nat.eqb_eq in Hlen. by rewrite Hlen. }
  split; [apply lookup_insert_eq|].
  rewrite !final_frame_parsed by set_solver.
  split; [apply lookup_insert_eq|].
  split; [apply parsed_frame_level|].
  split; [apply parsed_frame_message|].
  intros c Hc. by apply final_frame_parsed.
Qed.

(** C8. A batch with at least one parsed row whose collaborators return
    yields a frame with exactly as many rows, rows past the end do not
    exist, and row [i] carries the level and message of the [i]-th parsed
    row together with the [i]-th timestamp and the [i]-th score. *)
Theorem order_preservation (fit_predict : fit_predict_t fitted)
    (logs : list string) (parsed : list datetime) (anomaly : list Z)
    (score : list Q) :
  parse_logs logs <> [] ->
  returned fit_predict (parse_logs logs) parsed anomaly score ->
  exists df,
    run fit_predict logs = Ok df
    /\ index df = length (parse_logs logs)
    /\ (forall i, length (parse_logs logs) <= i -> iloc df i = None)
    /\ forall i row, parse_logs logs !! i = Some row ->
         exists t s,
           parsed !! i = Some t /\ score !! i = Some s
           /\ iloc df i
              = Some {| sr_timestamp := t;
                        sr_level := nth 1 row "";
                        sr_message := nth 2 row "";
                        sr_score := Some s;
                        sr_is_anomaly :=
                          classify (quantile (5 # 100) (map Some score))
                                   (Some s) |}.
Proof.
  intros Hne Hret. eexists. split; [by apply score_records_ok|].
  destruct Hret as (_ & Hlen & _ & _ & _ & _ & Hlen').
  split; [reflexivity|].
  assert (forall i,
    iloc (final_frame np_sqrt (parse_logs logs) parsed anomaly score) i
    = t ← parsed !! i; l ← column 1 (parse_logs logs) !! i;
      m ← column 2 (parse_logs logs) !! i; s ← map Some score !! i;
      a ← map (classify (quantile (5 # 100) (map Some score)))
              (map Some score) !! i;
      Some {| sr_timestamp := t; sr_level := l; sr_message := m;
              sr_score := s; sr_is_anomaly := a |}) as Hiloc.
  { intros i. unfold iloc.
    rewrite !final_frame_parsed by set_solver.
    rewrite final_frame_score, final_frame_is_anomaly.
    rewrite parsed_frame_level, parsed_frame_message.
    unfold parsed_frame. cbn [columns]. by rewrite lookup_insert_eq. }
  split.
  - intros i Hi. rewrite Hiloc.
    rewrite (lookup_ge_None_2 parsed) by lia. reflexivity.
  - intros i row Hrow. rewrite Hiloc.
    pose proof (lookup_lt_Some _ _ _ Hrow) as Hi.
    destruct (lookup_lt_is_Some_2 parsed i) as [t Ht]; [lia|].
    destruct (lookup_lt_is_Some_2 score i) as [s Hs]; [lia|].
    exists t, s. split; [done|]. split; [done|].
    unfold column. rewrite !list_lookup_fmap, Ht, Hs, Hrow. reflexivity.
Qed.


(** C4 (as amended). In the frame of a run whose collaborators return,
    every feature column holds the standard scores of that feature: each
    cell minus the batch mean, divided by the scale, which is the square
    root of the batch variance, or 1 when that variance is zero.  For a
    feature of zero variance the divisor is therefore 1 and every cell that
    is not NaN becomes 0; this is the case of every feature of a one-row
    batch.  A NaN cell stays NaN, whatever the variance.  The run returns
    one label per row. *)
Theorem zero_variance_normalization (fit_predict : fit_predict_t fitted)
    (logs : list string) (parsed : list datetime) (anomaly : list Z)
    (score : list Q) :
  parse_logs logs <> [] ->
  returned fit_predict (parse_logs logs) parsed anomaly score ->
  exists df labels,
    run fit_predict logs = Ok df
    /\ columns df !! "is_anomaly" = Some (LabelCol labels)
    /\ length labels = length (parse_logs logs)
    /\ forall j c raw,
         feature_cols !! j = Some c ->
         raw_features (parse_logs logs) !! j = Some raw ->
         columns df !! c
         = Some (NumCol
                   (map (fmap (fun x =>
                           ((x - mean_ raw) / scale_ np_sqrt raw)%Q)) raw))
         /\ (~ var_ raw == 0 -> scale_ np_sqrt raw = np_sqrt (var_ raw))
         /\ (var_ raw == 0 ->
             scale_ np_sqrt raw = 1%Q
             /\ forall i x, raw !! i = Some (Some x) ->
                  exists q, transform np_sqrt raw !! i = Some (Some q)
                            /\ q == 0)
         /\ (length (parse_logs logs) = 1 -> var_ raw == 0)
         /\ (forall i, raw !! i = Some None ->
               transform np_sqrt raw !! i = Some None).
Proof.
  intros Hne Hret. eexists _, _.
  split; [by apply score_records_ok|].
  split; [apply final_frame_is_anomaly|].
  destruct Hret as (_ & _ & _ & _ & _ & _ & Hlen).
  split; [by rewrite !length_map|].
  intros j c raw Hc Hraw.
  split; [by apply final_frame_feature with j|].
  split; [apply scale_positive_variance|].
  split.
  - intros Hvar. split; [by apply scale_zero_variance|].
    intros i x Hx. by apply transform_zero_variance with x.
  - split; [|intros i; apply transform_keeps_nan].
    intros Hone.
    pose proof (raw_features_rows (parse_logs logs)) as Hrows.
    rewrite Forall_forall in Hrows.
    specialize (Hrows raw (list_elem_of_lookup_2 _ j _ Hraw)).
    rewrite Hone in Hrows.
    destruct raw as [|cell [|? ?]]; try discriminate.
    apply var_single.
Qed.

End Scoring.

Section Seeding.

Context {datetime fitted RandomState : Type}.
Variable to_datetime : list string -> option (list datetime).
Variable np_sqrt : Q -> Q.
Variable decision_function : fitted -> ndarray -> option (list Q).
Variable seeded : Z -> RandomState.
Variable build_trees :
  RandomState -> Z -> Q -> ndarray -> option (fitted * list Z).

(** The run of a process whose generator is in state [ambient]. *)
Abbreviation run_in ambient :=
  (analyze_logs to_datetime np_sqrt decision_function
     (fit_predict_in seeded build_trees ambient)).

Lemma fit_predict_in_model (ambient : RandomState) (X : ndarray) :
  fit_predict_in seeded build_trees ambient model X
  = build_trees (seeded 42%Z) 150%Z (5 # 100) X.
Proof. reflexivity. Qed.

(** C2. Two runs on the same lines return the same result, frame or
    error, whatever the states in which they find the process-wide
    generator.  A run returns a frame exactly when at least one row was
    parsed, the timestamps convert, and the ensemble of 150 trees with
    contamination 0.05, built from the generator that seed 42 initialises
    on the scaled features, and its scoring each give one value per row;
    the frame then holds those labels and scores and the classification
    derived from the scores. *)
Theorem seeded_runs_agree (ambient1 ambient2 : RandomState)
    (logs : list string) :
  run_in ambient1 logs = run_in ambient2 logs
  /\ forall df,
       run_in ambient1 logs = Ok df
       <-> parse_logs logs <> []
           /\ exists parsed m anomaly score,
                to_datetime (column 0 (parse_logs logs)) = Some parsed
                /\ length parsed = length (parse_logs logs)
                /\ build_trees (seeded 42%Z) 150%Z (5 # 100)
                     (scaled_features np_sqrt (parse_logs logs))
                   = Some (m, anomaly)
                /\ length anomaly = length (parse_logs logs)
                /\ decision_function m
                     (scaled_features np_sqrt (parse_logs logs))
                   = Some score
                /\ length score = length (parse_logs logs)
                /\ df = final_frame np_sqrt (parse_logs logs) parsed
                          anomaly score.
Proof.
  split.
  - unfold analyze_logs. rewrite !score_records_eq.
    by rewrite !fit_predict_in_model.
  - intros df. split.
    + intros Hrun. apply score_records_inv in Hrun.
      destruct Hrun as (Hne & parsed & anomaly & score & Hret & ->).
      destruct Hret as (Hts & Hlts & m & Hfit & Hla & Hdf & Hls).
      rewrite fit_predict_in_model in Hfit.
      split; [done|]. by exists parsed, m, anomaly, score.
    + intros (Hne & parsed & m & anomaly & score
              & Hts & Hlts & Hfit & Hla & Hdf & Hls & ->).
      apply score_records_ok; [done|].
      split; [done|]. split; [done|]. exists m.
      by rewrite fit_predict_in_model.
Qed.

End Seeding.

(** Without a seed the fit follows the process-wide generator: the same
    array is labelled differently from two of its states. *)
Example unseeded_fits_differ :
  fit_predict_in Toy.seeded Toy.build_trees 0%Z Toy.unseeded
    (scaled_features Toy.np_sqrt (parse_logs one_line))
  <> fit_predict_in Toy.seeded Toy.build_trees 1%Z Toy.unseeded
       (scaled_features Toy.np_sqrt (parse_logs one_line)).
Proof. vm_compute. discriminate. Qed.

(** A run whose estimator had no seed would hand that difference on to
    the frame it returns. *)
Example unseeded_runs_differ :
  analyze_logs Toy.to_datetime Toy.np_sqrt Toy.decision_function
    (fun _ => fit_predict_in Toy.seeded Toy.build_trees 0%Z Toy.unseeded)
    one_line
  <> analyze_logs Toy.to_datetime Toy.np_sqrt Toy.decision_function
       (fun _ => fit_predict_in Toy.seeded Toy.build_trees 1%Z Toy.unseeded)
       one_line.
Proof.
  intros H.
  apply (f_equal (fun r => match r with
                           | Ok df => columns df !! "anomaly"
                           | Raise _ => None
                           end)) in H.
  vm_compute in H. discriminate H.
Qed.

(** With the estimator of line 67 the sample file gives a frame, labelled
    by the ensemble of the seed, from either state. *)
Example seeded_sample_run :
  exists df,
    analyze_logs Toy.to_datetime Toy.np_sqrt Toy.decision_function
      (fit_predict_in Toy.seeded Toy.build_trees 1%Z) sample_lines = Ok df
    /\ columns df !! "anomaly"
       = Some (NumCol (repeat (Some (inject_Z 1)) 8)).
Proof.
  destruct (analyze_logs Toy.to_datetime Toy.np_sqrt Toy.decision_function
              (fit_predict_in Toy.seeded Toy.build_trees 1%Z) sample_lines)
    as [df|e] eqn:E.
  - exists df. split; [reflexivity|].
    vm_compute in E. injection E as <-. vm_compute. reflexivity.
  - vm_compute in E. discriminate E.
Qed.

(** ** The theorems at concrete batches *)

Lemma threshold_classification_witness :
  exists df,
    Toy.run sample_lines = Ok df
    /\ exists (score : list Q) (labels : list label) (threshold : Q),
         columns df !! "score" = Some (NumCol (map Some score))
         /\ columns df !! "is_anomaly" = Some (LabelCol labels)
         /\ quantile (5 # 100) (map Some score) = Some threshold
         /\ length labels = length score
         /\ forall i s, score !! i = Some s ->
              (labels !! i = Some Anomaly <-> (s < threshold)%Q)
              /\ (labels !! i = Some Normal <-> ~ (s < threshold)%Q)
              /\ (s == threshold -> labels !! i = Some Normal).
Proof.
  destruct (Toy.run sample_lines) as [df|e] eqn:E.
  - exists df. split; [reflexivity|].
    exact (threshold_classification Toy.to_datetime Toy.np_sqrt
             Toy.decision_function Toy.fit_predict sample_lines df E).
  - vm_compute in E. discriminate E.
Defined.

Lemma empty_batch_fails_witness :
  parse_logs ["started"; ""] = []
  /\ Toy.run ["started"; ""] = Raise ValueError_no_samples.
Proof.
  split; [reflexivity|].
  apply (empty_batch_fails Toy.to_datetime Toy.np_sqrt Toy.decision_function
           ["started"; ""]); reflexivity.
Defined.

Lemma record_fields_preserved_witness :
  exists df,
    Toy.run sample_lines = Ok df
    /\ exists df0 parsed,
         load_frame Toy.to_datetime (parse_logs sample_lines) = Ok df0
         /\ columns df0 !! "timestamp" = Some (TimeCol parsed)
         /\ columns df !! "timestamp" = Some (TimeCol parsed)
         /\ columns df !! "level"
            = Some (StrCol (column 1 (parse_logs sample_lines)))
         /\ columns df !! "message"
            = Some (StrCol (column 2 (parse_logs sample_lines)))
         /\ forall c, c ∈ ["timestamp"; "level"; "message"] ->
                      columns df !! c = columns df0 !! c.
Proof.
  destruct (Toy.run sample_lines) as [df|e] eqn:E.
  - exists df. split; [reflexivity|].
    exact (record_fields_preserved Toy.to_datetime Toy.np_sqrt
             Toy.decision_function Toy.fit_predict sample_lines df E).
  - vm_compute in E. discriminate E.
Defined.

Lemma feature_vector_derivation_witness :
  exists df0,
    load_frame Toy.to_datetime (parse_logs sample_lines) = Ok df0
    /\ exists df1 X,
         add_features df0 = Ok df1
         /\ to_array df1 feature_cols = Ok X
         /\ feature_cols = ["level_score"; "message_length"; "contains_error";
                            "contains_fail"; "contains_timeout"]
         /\ n_samples X = length (parse_logs sample_lines)
         /\ forall i ts level message,
              parse_logs sample_lines !! i = Some [ts; level; message] ->
              exists rank c_error c_fail c_timeout,
                feature_vector X i
                = Some [rank;
                        Some (inject_Z (Z.of_nat (String.length message)));
                        Some c_error; Some c_fail; Some c_timeout]
                /\ (level = "INFO" -> rank = Some 1%Q)
                /\ (level = "WARNING" -> rank = Some 2%Q)
                /\ (level = "ERROR" -> rank = Some 3%Q)
                /\ (level = "CRITICAL" -> rank = Some 4%Q)
                /\ (level ∉ ["INFO"; "WARNING"; "ERROR"; "CRITICAL"] ->
                    rank = None)
                /\ indicator "error" message c_error
                /\ indicator "fail" message c_fail
                /\ indicator "timeout" message c_timeout.
Proof.
  destruct (load_frame Toy.to_datetime (parse_logs sample_lines))
    as [df0|e] eqn:E.
  - exists df0. split; [reflexivity|].
    exact (feature_vector_derivation Toy.to_datetime sample_lines df0 E).
  - vm_compute in E. discriminate E.
Defined.

Lemma one_line_returned :
  collaborators_return Toy.to_datetime Toy.np_sqrt Toy.decision_function
    Toy.fit_predict (parse_logs one_line) ["2024-09-10 10:15:23"] [1%Z]
    [1%Q].
Proof. repeat split. exists tt. repeat split. Qed.

Lemma three_lines_returned :
  collaborators_return Toy.to_datetime Toy.np_sqrt Toy.decision_function
    Toy.fit_predict (parse_logs three_lines)
    ["2024-09-10 10:19:44"; "2024-09-10 10:20:15"] [1%Z; 1%Z]
    [(-2)%Q; (-2)%Q].
Proof. repeat split. exists tt. repeat split. Qed.

Lemma zero_variance_normalization_witness :
  exists df labels,
    Toy.run one_line = Ok df
    /\ columns df !! "is_anomaly" = Some (LabelCol labels)
    /\ length labels = length (parse_logs one_line)
    /\ forall j c raw,
         feature_cols !! j = Some c ->
         raw_features (parse_logs one_line) !! j = Some raw ->
         columns df !! c
         = Some (NumCol
                   (map (fmap (fun x =>
                           ((x - mean_ raw) / scale_ Toy.np_sqrt raw)%Q))
                        raw))
         /\ (~ var_ raw == 0 ->
             scale_ Toy.np_sqrt raw = Toy.np_sqrt (var_ raw))
         /\ (var_ raw == 0 ->
             scale_ Toy.np_sqrt raw = 1%Q
             /\ forall i x, raw !! i = Some (Some x) ->
                  exists q, transform Toy.np_sqrt raw !! i = Some (Some q)
                            /\ q == 0)
         /\ (length (parse_logs one_line) = 1 -> var_ raw == 0)
         /\ (forall i, raw !! i = Some None ->
               transform Toy.np_sqrt raw !! i = Some None).
Proof.
  apply (zero_variance_normalization Toy.to_datetime Toy.np_sqrt
           Toy.decision_function Toy.fit_predict one_line
           ["2024-09-10 10:15:23"] [1%Z] [1%Q]).
  - discriminate.
  - exact one_line_returned.
Defined.

(** C4 as stated fails: in this batch of one row every feature has zero
    variance, yet the level is outside the table and the normalized
    [level_score] of the row is NaN, not 0. *)
Lemma unmapped_level_not_normalized :
  length (parse_logs debug_line) = 1%nat
  /\ raw_features (parse_logs debug_line) !! 0%nat = Some [None]
  /\ var_ [None] == 0
  /\ transform Toy.np_sqrt [None] = [None]
  /\ exists df,
       Toy.run debug_line = Ok df
       /\ columns df !! "level_score" = Some (NumCol [None])
       /\ columns df !! "level_score" <> Some (NumCol [Some 0%Q]).
Proof.
  split; [reflexivity|]. split; [reflexivity|].
  split; [reflexivity|]. split; [reflexivity|].
  destruct (Toy.run debug_line) as [df|e] eqn:E.
  - exists df. split; [reflexivity|].
    assert (columns df !! "level_score" = Some (NumCol [None])) as H.
    { vm_compute in E. injection E as <-. vm_compute. reflexivity. }
    split; [exact H|]. rewrite H. discriminate.
  - vm_compute in E. discriminate E.
Qed.

Lemma order_preservation_witness :
  exists df,
    Toy.run three_lines = Ok df
    /\ index df = length (parse_logs three_lines)
    /\ (forall i, length (parse_logs three_lines) <= i -> iloc df i = None)
    /\ forall i row, parse_logs three_lines !! i = Some row ->
         exists t s,
           ["2024-09-10 10:19:44"; "2024-09-10 10:20:15"] !! i = Some t
           /\ [(-2)%Q; (-2)%Q] !! i = Some s
           /\ iloc df i
              = Some {| sr_timestamp := t;
                        sr_level := nth 1 row "";
                        sr_message := nth 2 row "";
                        sr_score := Some s;
                        sr_is_anomaly :=
                          classify
                            (quantile (5 # 100)
                               (map Some [(-2)%Q; (-2)%Q]))
                            (Some s) |}.
Proof.
  apply (order_preservation Toy.to_datetime Toy.np_sqrt
           Toy.decision_function Toy.fit_predict three_lines
           ["2024-09-10 10:19:44"; "2024-09-10 10:20:15"] [1%Z; 1%Z]
           [(-2)%Q; (-2)%Q]).
  - discriminate.
  - exact three_lines_returned.
Defined.

(** * Further properties *)

(** ** More on strings *)

Lemma rstrip_app_inv a b :
  Py.rstrip (a +:+ b) = a +:+ b -> Py.rstrip b = b.
Proof.
  induction a as [|c a IH]; [done|].
  rewrite app_String. cbn [Py.rstrip].
  destruct (Py.rstrip (a +:+ b)) as [|c' r] eqn:E.
  - destruct (Py.isspace c); [discriminate|].
    intros [= H]. symmetry in H. apply app_empty in H as ->. reflexivity.
  - intros [= H]. apply IH. congruence.
Qed.

Lemma rstrip_idem s : Py.rstrip (Py.rstrip s) = Py.rstrip s.
Proof.
  induction s as [|c s IH]; [done|].
  cbn [Py.rstrip]. destruct (Py.rstrip s) as [|c' r] eqn:E.
  - destruct (Py.isspace c) eqn:Hc; [done|].
    cbn [Py.rstrip]. by rewrite Hc.
  - cbn [Py.rstrip] in *. rewrite IH. reflexivity.
Qed.

Lemma lstrip_starts_clean s : starts_clean (Py.lstrip s).
Proof.
  induction s as [|c s IH]; [done|].
  cbn [Py.lstrip]. destruct (Py.isspace c) eqn:Hc; [done|]. exact Hc.
Qed.

Lemma rstrip_starts_clean s : starts_clean s -> starts_clean (Py.rstrip s).
Proof.
  destruct s as [|c s]; [done|]. cbn [starts_clean Py.rstrip]. intros Hc.
  destruct (Py.rstrip s); [by rewrite Hc | done].
Qed.

Lemma strip_starts_clean s : starts_clean (Py.strip s).
Proof. apply rstrip_starts_clean, lstrip_starts_clean. Qed.

Lemma rstrip_strip s : Py.rstrip (Py.strip s) = Py.strip s.
Proof. apply rstrip_idem. Qed.

Lemma lstrip_all_space s : all_space s = true -> Py.lstrip s = "".
Proof.
  induction s as [|c s IH]; [done|].
  cbn [all_space Py.lstrip]. intros [Hc Hs]%andb_prop. rewrite Hc. auto.
Qed.

Lemma rstrip_all_space s : all_space s = true -> Py.rstrip s = "".
Proof.
  induction s as [|c s IH]; [done|].
  cbn [all_space Py.rstrip]. intros [Hc Hs]%andb_prop.
  by rewrite IH, Hc.
Qed.

Lemma lstrip_app_space pre s :
  all_space pre = true -> Py.lstrip (pre +:+ s) = Py.lstrip s.
Proof.
  induction pre as [|c pre IH]; [done|].
  cbn [all_space]. intros [Hc Hs]%andb_prop.
  rewrite app_String. cbn [Py.lstrip]. rewrite Hc. auto.
Qed.

Lemma rstrip_app_space s post :
  all_space post = true -> Py.rstrip (s +:+ post) = Py.rstrip s.
Proof.
  intros Hpost. induction s as [|c s IH].
  - by apply rstrip_all_space.
  - rewrite app_String. cbn [Py.rstrip]. by rewrite IH.
Qed.

Lemma lstrip_app s post :
  Py.lstrip (s +:+ post)
  = if all_space s then Py.lstrip post else Py.lstrip s +:+ post.
Proof.
  induction s as [|c s IH]; [done|].
  rewrite app_String. cbn [Py.lstrip all_space].
  destruct (Py.isspace c); [exact IH | reflexivity].
Qed.

(** Whitespace around a line does not change what [strip] returns. *)
Lemma strip_surrounded pre s post :
  all_space pre = true -> all_space post = true ->
  Py.strip (pre +:+ s +:+ post) = Py.strip s.
Proof.
  intros Hpre Hpost. unfold Py.strip.
  rewrite lstrip_app_space by done. rewrite lstrip_app.
  destruct (all_space s) eqn:Hs.
  - rewrite (lstrip_all_space post), (lstrip_all_space s) by done. reflexivity.
  - by apply rstrip_app_space.
Qed.

Lemma join_split s n : join_blank (Py.split s n) = s.
Proof.
  revert n. induction s as [|c s IH]; intros n; [done|].
  cbn [Py.split]. destruct n as [|n]; [done|].
  destruct (Ascii.eqb_spec c " ") as [->|Hc].
  - specialize (IH n). pose proof (split_nonempty s n) as Hne.
    destruct (Py.split s n) as [|p ps]; [done|].
    cbn [join_blank]. cbn [join_blank] in IH. by rewrite IH.
  - specialize (IH (S n)). pose proof (split_nonempty s (S n)) as Hne.
    destruct (Py.split s (S n)) as [|p ps]; [done|].
    destruct ps as [|p' ps]; cbn [join_blank] in *.
    + by rewrite IH.
    + rewrite app_String. by rewrite IH.
Qed.

(** Every piece before the last one of a split, and every piece when the
    split stopped for lack of spaces, is free of spaces. *)
Lemma split_pieces s n i p :
  Py.split s n !! i = Some p ->
  (i < n)%nat -> no_blank p = true.
Proof.
  revert n i p. induction s as [|c s IH]; intros n i p.
  - cbn [Py.split]. destruct i; [|done]. by intros [= <-].
  - cbn [Py.split]. destruct n as [|n]; [lia|].
    destruct (Ascii.eqb c " ") eqn:Hc.
    + destruct i as [|i]; [by intros [= <-]|].
      cbn. intros Hp Hi. apply (IH n i); [done | lia].
    + pose proof (split_nonempty s (S n)) as Hne.
      destruct (Py.split s (S n)) as [|q qs] eqn:E; [done|].
      destruct i as [|i].
      * intros [= <-] Hi. cbn [no_blank]. rewrite Hc. cbn.
        apply (IH (S n) 0%nat); [by rewrite E | lia].
      * cbn. intros Hp Hi. apply (IH (S n) (S i)); [by rewrite E | done].
Qed.

Lemma split_length s n : (length (Py.split s n) <= S n)%nat.
Proof.
  revert n. induction s as [|c s IH]; intros n; [cbn; lia|].
  cbn [Py.split]. destruct n as [|n]; [cbn; lia|].
  destruct (Ascii.eqb c " ").
  - cbn [length]. specialize (IH n). lia.
  - specialize (IH (S n)). destruct (Py.split s (S n)); cbn [length] in *; lia.
Qed.

(** ** More on the parser *)

Lemma parse_step_cases line :
  parse_step [] line = []
  \/ exists p0 p1 p2 p3,
       Py.split (Py.strip line) 3 = [p0; p1; p2; p3]
       /\ parse_step [] line = [[p0 +:+ " " +:+ p1; p2; p3]].
Proof.
  unfold parse_step. pose proof (split_length (Py.strip line) 3) as Hle.
  destruct (length (Py.split (Py.strip line) 3) <? 4)%nat eqn:E; [by left|].
  right. apply Nat.ltb_ge in E.
  destruct (Py.split (Py.strip line) 3) as [|p0 [|p1 [|p2 [|p3 [|? ?]]]]];
    cbn [length] in *; try lia.
  by exists p0, p1, p2, p3.
Qed.

Lemma elem_of_parse_logs row logs :
  row ∈ parse_logs logs <-> exists line, line ∈ logs /\ row ∈ parse_step [] line.
Proof.
  induction logs as [|log logs IH].
  - split; [by intros H%elem_of_nil | by intros (? & H%elem_of_nil & _)].
  - rewrite parse_logs_cons, elem_of_app, IH. split.
    + intros [H | (line & Hin & H)].
      * exists log. split; [apply elem_of_cons; by left | done].
      * exists line. split; [apply elem_of_cons; by right | done].
    + intros (line & Hin & H). apply elem_of_cons in Hin as [-> | Hin].
      * by left.
      * right. by exists line.
Qed.

Lemma parse_logs_length logs : (length (parse_logs logs) <= length logs)%nat.
Proof.
  induction logs as [|log logs IH]; [done|].
  rewrite parse_logs_cons, length_app. cbn [length].
  destruct (parse_step_cases log) as [-> | (? & ? & ? & ? & _ & ->)];
    cbn [length]; lia.
Qed.

(** X1. Every parsed row comes from one of the lines, and putting its
    three cells together with single spaces gives that line as [strip] left
    it. *)
Theorem parsed_row_rebuilds_line (logs : list string) (row : list string) :
  row ∈ parse_logs logs ->
  exists line, line ∈ logs /\ reconstruct row = Py.strip line.
Proof.
  intros (line & Hin & Hrow)%elem_of_parse_logs.
  exists line. split; [done|].
  destruct (parse_step_cases line) as [E | (p0 & p1 & p2 & p3 & Hs & E)];
    rewrite E in Hrow.
  - by apply elem_of_nil in Hrow.
  - apply list_elem_of_singleton in Hrow as ->.
    unfold reconstruct. cbn [nth].
    rewrite <- (join_split (Py.strip line) 3), Hs. cbn [join_blank].
    by rewrite !app_assoc_string.
Qed.

(** X2. The cells of a parsed row: the timestamp is two pieces without
    spaces joined by one space, the first of them not empty and not starting
    with whitespace; the level holds no space; the message is not empty and
    does not end in whitespace. *)
Theorem parsed_fields_shape (logs : list string) (ts level message : string) :
  [ts; level; message] ∈ parse_logs logs ->
  exists d t,
    ts = d +:+ " " +:+ t
    /\ d <> "" /\ starts_clean d
    /\ no_blank d = true /\ no_blank t = true /\ no_blank level = true
    /\ message <> "" /\ Py.rstrip message = message.
Proof.
  intros (line & Hin & Hrow)%elem_of_parse_logs.
  destruct (parse_step_cases line) as [E | (p0 & p1 & p2 & p3 & Hs & E)];
    rewrite E in Hrow.
  { by apply elem_of_nil in Hrow. }
  apply list_elem_of_singleton in Hrow. injection Hrow as -> -> ->.
  exists p0, p1. split; [done|].
  pose proof (join_split (Py.strip line) 3) as Hjoin.
  rewrite Hs in Hjoin. cbn [join_blank] in Hjoin.
  pose proof (rstrip_strip line) as Hr. pose proof (strip_starts_clean line) as Hc.
  rewrite <- Hjoin in Hr, Hc.
  assert (forall i p, [p0; p1; p2; p3] !! i = Some p -> (i < 3)%nat ->
                      no_blank p = true) as Hpieces.
  { intros i p. rewrite <- Hs. apply split_pieces. }
  split; [|split].
  { intros ->. cbn in Hc. discriminate. }
  { destruct p0; [done | exact Hc]. }
  split; [by apply (Hpieces 0%nat); [|lia]|].
  split; [by apply (Hpieces 1%nat); [|lia]|].
  split; [by apply (Hpieces 2%nat); [|lia]|].
  assert (Py.rstrip p3 = p3) as Hp3.
  { apply (rstrip_app_inv (p0 +:+ " " +:+ p1 +:+ " " +:+ p2 +:+ " ")).
    by rewrite !app_assoc_string. }
  split; [|done].
  intros ->.
  assert (Py.rstrip " " = " ") as Habs.
  { apply (rstrip_app_inv (p0 +:+ " " +:+ p1 +:+ " " +:+ p2)).
    rewrite !app_assoc_string. exact Hr. }
  discriminate Habs.
Qed.

(** X3. Parsing works line by line: the rows of a batch made of two parts
    are the rows of the first part followed by those of the second, and
    there are never more rows than lines. *)
Theorem parse_logs_batches (logs1 logs2 : list string) :
  parse_logs (logs1 ++ logs2) = parse_logs logs1 ++ parse_logs logs2
  /\ (length (parse_logs logs1) <= length logs1)%nat.
Proof. split; [apply parse_logs_app | apply parse_logs_length]. Qed.

Lemma parse_step_strip data line1 line2 :
  Py.strip line1 = Py.strip line2 -> parse_step data line1 = parse_step data line2.
Proof. intros H. unfold parse_step. by rewrite H. Qed.

Lemma parse_logs_padded (logs : list string) (pre post : string) :
  all_space pre = true -> all_space post = true ->
  parse_logs (map (fun line => pre +:+ line +:+ post) logs) = parse_logs logs.
Proof.
  intros Hpre Hpost. induction logs as [|log logs IH]; [done|].
  cbn [map]. rewrite !parse_logs_cons, IH. f_equal.
  by apply parse_step_strip, strip_surrounded.
Qed.

(** X4. Whitespace before and after a line, such as the newline that
    [readlines] leaves at its end, does not change the rows. *)
Theorem surrounding_whitespace_ignored (logs : list string)
    (pre post : string) :
  all_space pre = true -> all_space post = true ->
  parse_logs (map (fun line => pre +:+ line +:+ post) logs) = parse_logs logs.
Proof. apply parse_logs_padded. Qed.

(** X5. Lines made of whitespace only, the empty line among them, yield
    no row. *)
Theorem blank_lines_dropped (logs : list string) :
  Forall (fun line => all_space line = true) logs -> parse_logs logs = [].
Proof.
  induction 1 as [|line logs Hline _ IH]; [done|].
  rewrite parse_logs_cons, IH, app_nil_r.
  unfold parse_step, Py.strip. by rewrite (lstrip_all_space line).
Qed.

(** ** More on the keyword search *)

Lemma lower_length s : String.length (Py.lower s) = String.length s.
Proof. induction s as [|c s IH]; [done|]. cbn. by rewrite IH. Qed.

Lemma match_ignorecase_lower pat1 pat2 s1 s2 :
  Py.lower pat1 = Py.lower pat2 -> Py.lower s1 = Py.lower s2 ->
  Py.match_ignorecase pat1 s1 = Py.match_ignorecase pat2 s2.
Proof.
  revert pat2 s1 s2. induction pat1 as [|p1 pat1 IH]; intros [|p2 pat2] s1 s2;
    try discriminate; [done|].
  cbn [Py.lower]. intros [= Hp Hpat] Hs.
  destruct s1 as [|c1 s1], s2 as [|c2 s2]; try discriminate; [done|].
  cbn [Py.lower] in Hs. injection Hs as Hc Hs.
  cbn [Py.match_ignorecase]. by rewrite Hp, Hc, (IH pat2 s1 s2).
Qed.

Lemma search_ignorecase_lower pat1 pat2 s1 s2 :
  Py.lower pat1 = Py.lower pat2 -> Py.lower s1 = Py.lower s2 ->
  Py.search_ignorecase pat1 s1 = Py.search_ignorecase pat2 s2.
Proof.
  intros Hpat. revert s2. induction s1 as [|c1 s1 IH]; intros [|c2 s2] Hs;
    try discriminate.
  - cbn [Py.search_ignorecase]. f_equal. by apply match_ignorecase_lower.
  - cbn [Py.search_ignorecase]. rewrite (match_ignorecase_lower _ pat2 _ (String c2 s2)) by done.
    cbn [Py.lower] in Hs. injection Hs as _ Hs. by rewrite (IH s2).
Qed.

Lemma match_ignorecase_length pat s :
  Py.match_ignorecase pat s = true -> (String.length pat <= String.length s)%nat.
Proof.
  revert s. induction pat as [|p pat IH]; intros s; [cbn; lia|].
  destruct s as [|c s]; [done|]. cbn [Py.match_ignorecase String.length].
  intros [_ H]%andb_prop. apply IH in H. lia.
Qed.

Lemma search_ignorecase_length pat s :
  Py.search_ignorecase pat s = true -> (String.length pat <= String.length s)%nat.
Proof.
  induction s as [|c s IH]; cbn [Py.search_ignorecase].
  - rewrite orb_false_r. apply match_ignorecase_length.
  - intros [H | H]%orb_prop.
    + by apply match_ignorecase_length.
    + apply IH in H. cbn [String.length]. lia.
Qed.

(** X6. A keyword indicator ignores case on both sides: it is the same
    for two messages, and for two keywords, that differ only in the case of
    their letters. *)
Theorem contains_ignores_case (kw1 kw2 message1 message2 : string) :
  Py.lower kw1 = Py.lower kw2 -> Py.lower message1 = Py.lower message2 ->
  contains kw1 message1 = contains kw2 message2.
Proof.
  intros Hkw Hm. unfold contains.
  by rewrite (search_ignorecase_lower kw1 kw2 message1 message2).
Qed.

(** X7. A message shorter than the keyword has indicator 0. *)
Theorem contains_short_message (kw message : string) :
  (String.length message < String.length kw)%nat ->
  contains kw message = Some 0%Q.
Proof.
  intros Hlen. unfold contains.
  destruct (Py.search_ignorecase kw message) eqn:E; [|done].
  apply search_ignorecase_length in E. lia.
Qed.

(** ** Sorting *)

Lemma insert_sorted_perm x l : x :: l ≡ₚ insert_sorted x l.
Proof.
  induction l as [|y l IH]; [done|].
  cbn [insert_sorted]. destruct (Qle_bool x y); [done|].
  rewrite <- IH. apply perm_swap.
Qed.

Lemma sort_perm l : l ≡ₚ sort l.
Proof.
  induction l as [|x l IH]; [done|].
  cbn [sort fold_right]. fold (sort l).
  rewrite <- insert_sorted_perm. by constructor.
Qed.

Lemma insert_sorted_sorted x l :
  StronglySorted Qle l -> StronglySorted Qle (insert_sorted x l).
Proof.
  induction 1 as [|y l Hl IH Hy]; cbn [insert_sorted].
  - by repeat constructor.
  - destruct (Qle_bool x y) eqn:E.
    + apply Qle_bool_iff in E. constructor; [by constructor|].
      constructor; [done|].
      eapply Forall_impl; [exact Hy|]. intros z Hz. by apply Qle_trans with y.
    + assert (y <= x)%Q as Hyx.
      { apply Qnot_lt_le. intros H%Qlt_le_weak%Qle_bool_iff. congruence. }
      constructor; [done|].
      rewrite <- insert_sorted_perm. by constructor.
Qed.

Lemma sort_sorted l : StronglySorted Qle (sort l).
Proof.
  induction l as [|x l IH]; [constructor|].
  cbn [sort fold_right]. fold (sort l). by apply insert_sorted_sorted.
Qed.

Lemma sorted_lookup v i j x y :
  StronglySorted Qle v -> (i <= j)%nat ->
  v !! i = Some x -> v !! j = Some y -> (x <= y)%Q.
Proof.
  intros Hv. revert i j. induction Hv as [|z v Hv IH Hz]; intros i j Hij Hx Hy.
  - done.
  - destruct i as [|i], j as [|j]; cbn in Hx, Hy; try lia.
    + injection Hx as <-. injection Hy as <-. apply Qle_refl.
    + injection Hx as <-. rewrite Forall_forall in Hz.
      apply Hz. by eapply list_elem_of_lookup_2.
    + apply (IH i j); [lia | done | done].
Qed.

(** ** The threshold between its neighbours *)

Lemma lookup_sorted_perm l i x : sort l !! i = Some x -> x ∈ l.
Proof.
  intros H. rewrite (sort_perm l). by eapply list_elem_of_lookup_2.
Qed.

Lemma percentile_index (k : nat) :
  Z.to_nat (Qfloor ((5 # 100) * inject_Z (Z.of_nat k))) = (k / 20)%nat.
Proof.
  assert ((5 # 100) * inject_Z (Z.of_nat k)
          == inject_Z (Z.of_nat k) / inject_Z 20)%Q as -> by field.
  rewrite <- Zdiv_Qdiv.
  rewrite <- (Nat2Z.id (k / 20)). f_equal.
  by rewrite Nat2Z.inj_div.
Qed.

(** The 0.05 quantile of [n] values lies between the sorted values at
    index [(n - 1) / 20] and at the next index, if there is one. *)
Lemma quantile_neighbours (l : list Q) :
  l <> [] ->
  let lo := ((length l - 1) / 20)%nat in
  let hi := Nat.min (lo + 1) (length l - 1) in
  let frac := ((5 # 100) * inject_Z (Z.of_nat (length l - 1))
               - inject_Z (Z.of_nat lo))%Q in
  exists a b,
    sort l !! lo = Some a /\ sort l !! hi = Some b
    /\ quantile (5 # 100) (map Some l) = Some (a + (b - a) * frac)%Q
    /\ (a <= b)%Q /\ (0 <= frac)%Q /\ (frac < 1)%Q.
Proof.
  intros Hne lo hi frac.
  assert (length (sort l) = length l) as Hlen by apply sort_length.
  assert (0 < length l)%nat as Hpos by (destruct l; [done | cbn; lia]).
  assert (lo <= length l - 1)%nat as Hlo.
  { subst lo. transitivity ((length l - 1) / 1)%nat.
    - apply Nat.div_le_compat_l. lia.
    - by rewrite Nat.div_1_r. }
  destruct (lookup_lt_is_Some_2 (sort l) lo) as [a Ha]; [lia|].
  destruct (lookup_lt_is_Some_2 (sort l) hi) as [b Hb]; [subst hi; lia|].
  exists a, b. split; [done|]. split; [done|].
  assert (Qfloor ((5 # 100) * inject_Z (Z.of_nat (length l - 1)))
          = Z.of_nat lo) as Hfloor.
  { pose proof (percentile_index (length l - 1)) as H. fold lo in H.
    rewrite <- H. rewrite Z2Nat.id; [done|].
    apply (Qfloor_resp_le 0).
    apply Qmult_le_0_compat; [done|].
    change 0%Q with (inject_Z 0). rewrite <- Zle_Qle. lia. }
  split.
  { unfold quantile. rewrite present_Some.
    destruct (sort l) as [|v0 v] eqn:E; [cbn in Hlen; lia|].
    rewrite Hlen, Hfloor, Nat2Z.id. fold lo hi. cbn zeta.
    rewrite <- E in *. 
    rewrite (nth_lookup_Some _ _ _ _ Ha), (nth_lookup_Some _ _ _ _ Hb).
    reflexivity. }
  split.
  { apply (sorted_lookup (sort l) lo hi); [apply sort_sorted | subst hi; lia | done | done]. }
  subst frac. rewrite <- Hfloor. split.
  - pose proof (Qfloor_le ((5 # 100) * inject_Z (Z.of_nat (length l - 1)))) as H.
    revert H. generalize ((5 # 100) * inject_Z (Z.of_nat (length l - 1)))%Q.
    intros x. generalize (inject_Z (Qfloor x)). intros y H. lra.
  - pose proof (Qlt_floor ((5 # 100) * inject_Z (Z.of_nat (length l - 1)))) as H.
    rewrite inject_Z_plus in H.
    revert H. generalize ((5 # 100) * inject_Z (Z.of_nat (length l - 1)))%Q.
    intros x. generalize (inject_Z (Qfloor x)). intros y H.
    change (inject_Z 1) with 1%Q in H. lra.
Qed.

Lemma quantile_between (l : list Q) :
  l <> [] ->
  exists a b t,
    sort l !! ((length l - 1) / 20)%nat = Some a
    /\ sort l !! Nat.min ((length l - 1) / 20 + 1) (length l - 1) = Some b
    /\ quantile (5 # 100) (map Some l) = Some t
    /\ (a <= t)%Q /\ (t <= b)%Q.
Proof.
  intros Hne.
  destruct (quantile_neighbours l Hne) as (a & b & Ha & Hb & Hq & Hab & H0 & H1).
  exists a, b. eexists. split; [done|]. split; [done|]. split; [done|].
  split; nra.
Qed.

Lemma filter_none {A} (P : A -> Prop) `{forall x, Decision (P x)} (l : list A) :
  Forall (fun x => ~ P x) l -> filter P l = [].
Proof.
  induction 1 as [|x l Hx _ IH]; [done|].
  by rewrite filter_cons_False, IH.
Qed.

Lemma anomaly_count_scores (t : option Q) (score : list Q) :
  anomaly_count (map (classify t) (map Some score))
  = length (filter (fun s => classify t (Some s) = Anomaly) score).
Proof.
  unfold anomaly_count. rewrite map_map.
  induction score as [|s score IH]; [done|].
  cbn [map]. rewrite !filter_cons. cbn beta.
  destruct (decide (classify t (Some s) = Anomaly)); cbn [length]; by rewrite IH.
Qed.

(** At most [hi] scores are strictly below the sorted value at index
    [hi]. *)
Lemma count_below_sorted (l : list Q) (t b : Q) (hi : nat) :
  sort l !! hi = Some b -> (t <= b)%Q ->
  (length (filter (fun s => classify (Some t) (Some s) = Anomaly) l) <= hi)%nat.
Proof.
  intros Hb Htb.
  rewrite (sort_perm l) at 1.
  rewrite <- (take_drop hi (sort l)), filter_app, length_app.
  rewrite (filter_none _ (drop hi (sort l))).
  - cbn [length]. rewrite Nat.add_0_r.
    etransitivity; [apply length_filter|]. rewrite length_take. lia.
  - apply Forall_forall. intros x Hx.
    apply list_elem_of_lookup in Hx as [k Hk]. rewrite lookup_drop in Hk.
    rewrite classify_anomaly. intros Hlt.
    pose proof (sorted_lookup (sort l) hi (hi + k) b x (sort_sorted l)
                  ltac:(lia) Hb Hk) as Hbx.
    lra.
Qed.

Section Threshold.

Context {datetime fitted : Type}.
Variable to_datetime : list string -> option (list datetime).
Variable np_sqrt : Q -> Q.
Variable decision_function : fitted -> ndarray -> option (list Q).
Variable fit_predict : fit_predict_t fitted.

Abbreviation run :=
  (analyze_logs to_datetime np_sqrt decision_function fit_predict).

(** The two columns of the returned frame that the threshold rule
    concerns. *)
Lemma run_scores logs (df : DataFrame datetime) :
  run logs = Ok df ->
  exists score : list Q,
    score <> [] /\ length score = length (parse_logs logs)
    /\ columns df !! "score" = Some (NumCol (map Some score))
    /\ columns df !! "is_anomaly"
       = Some (LabelCol (map (classify (quantile (5 # 100) (map Some score)))
                             (map Some score))).
Proof.
  intros Hrun. apply score_records_inv in Hrun
    as (Hne & parsed & anomaly & score & Hret & ->).
  destruct Hret as (_ & _ & f & _ & _ & _ & Hlen).
  exists score. split.
  { intros ->. by destruct (parse_logs logs). }
  split; [done|]. split; [apply final_frame_score | apply final_frame_is_anomaly].
Qed.

(** X8. A row whose score is the largest of the batch is never flagged.
    Hence a batch whose scores are all equal, and a batch of one row, has
    no anomaly. *)
Theorem largest_score_is_normal (logs : list string) (df : DataFrame datetime) :
  run logs = Ok df ->
  exists (score : list Q) (labels : list label),
    columns df !! "score" = Some (NumCol (map Some score))
    /\ columns df !! "is_anomaly" = Some (LabelCol labels)
    /\ forall i s, score !! i = Some s ->
         (forall s', s' ∈ score -> (s' <= s)%Q) ->
         labels !! i = Some Normal.
Proof.
  intros (score & Hne & Hlen & Hs & Hl)%run_scores.
  eexists score, _. split; [done|]. split; [done|].
  intros i s Hi Hmax.
  destruct (quantile_between score Hne) as (a & b & t & Ha & Hb & Hq & Hat & Htb).
  rewrite Hq, !list_lookup_fmap, Hi. cbn [fmap option_fmap option_map].
  f_equal. apply classify_normal. intros Hlt.
  pose proof (Hmax b (lookup_sorted_perm _ _ _ Hb)). lra.
Qed.

(** X9. Of [N] rows at most [(N - 1) / 20 + 1] are flagged, and never all
    of them. *)
Theorem anomaly_count_bound (logs : list string) (df : DataFrame datetime) :
  run logs = Ok df ->
  exists labels : list label,
    columns df !! "is_anomaly" = Some (LabelCol labels)
    /\ length labels = length (parse_logs logs)
    /\ (anomaly_count labels <= (length (parse_logs logs) - 1) / 20 + 1)%nat
    /\ (anomaly_count labels < length (parse_logs logs))%nat.
Proof.
  intros (score & Hne & Hlen & Hs & Hl)%run_scores.
  eexists. split; [done|]. split; [by rewrite !length_map|].
  destruct (quantile_between score Hne) as (a & b & t & Ha & Hb & Hq & Hat & Htb).
  rewrite Hq, anomaly_count_scores.
  pose proof (count_below_sorted score t b _ Hb Htb) as Hcount.
  assert (0 < length score)%nat by (destruct score; [done | cbn; lia]).
  rewrite <- Hlen. split; lia.
Qed.

(** X11. The flag is monotone in the score: a row whose score is at most
    the score of a flagged row is flagged too. *)
Theorem flag_is_monotone (logs : list string) (df : DataFrame datetime) :
  run logs = Ok df ->
  exists (score : list Q) (labels : list label),
    columns df !! "score" = Some (NumCol (map Some score))
    /\ columns df !! "is_anomaly" = Some (LabelCol labels)
    /\ forall i j s s',
         score !! i = Some s -> score !! j = Some s' ->
         labels !! i = Some Anomaly -> (s' <= s)%Q ->
         labels !! j = Some Anomaly.
Proof.
  intros (score & Hne & Hlen & Hs & Hl)%run_scores.
  eexists score, _. split; [done|]. split; [done|].
  intros i j s s' Hi Hj.
  destruct (quantile_defined (5 # 100) score Hne) as [t Ht].
  rewrite Ht, !list_lookup_fmap, Hi, Hj. cbn [fmap option_fmap option_map].
  intros [= Hflag] Hle. f_equal.
  apply classify_anomaly. apply classify_anomaly in Hflag. lra.
Qed.

End Threshold.

(** ** Masks *)

Lemma filter_mask_length {A B} (mask : list bool) (l : list A) (l' : list B) :
  length l = length l' ->
  length (filter_mask mask l) = length (filter_mask mask l').
Proof.
  revert l l'. induction mask as [|b mask IH]; intros [|x l] [|y l'] Hlen;
    try done.
  injection Hlen as Hlen. cbn [filter_mask].
  destruct b; cbn [length]; by rewrite (IH l l').
Qed.

Lemma filter_mask_decide {A} (P : A -> Prop) `{forall x, Decision (P x)}
    (l : list A) :
  filter_mask (map (fun x => bool_decide (P x)) l) l = filter P l.
Proof.
  induction l as [|x l IH]; [done|].
  cbn [map filter_mask]. rewrite filter_cons.
  destruct (decide (P x)) as [Hx | Hx].
  - by rewrite bool_decide_eq_true_2, IH.
  - by rewrite bool_decide_eq_false_2, IH.
Qed.

Lemma filter_mask_map {A B} (f : A -> B) (mask : list bool) (l : list A) :
  filter_mask mask (map f l) = map f (filter_mask mask l).
Proof.
  revert l. induction mask as [|b mask IH]; intros [|x l]; try done.
  cbn [map filter_mask]. destruct b; cbn [map]; by rewrite IH.
Qed.

(** The two masks of [home] split the rows. *)
Lemma label_masks_partition (labels : list label) :
  (length (filter (fun l => l = Anomaly) labels)
   + length (filter (fun l => l = Normal) labels) = length labels)%nat.
Proof.
  induction labels as [|l labels IH]; [done|].
  rewrite !filter_cons. destruct l.
  - rewrite decide_True, decide_False by done. cbn [length]. lia.
  - rewrite decide_False, decide_True by done. cbn [length]. lia.
Qed.

Lemma mapM_lookup_seq {A} (e : exception) (pre l : list A) :
  mapM (fun i => or_raise e ((pre ++ l) !! i)) (seq (length pre) (length l))
  = Ok l.
Proof.
  revert pre. induction l as [|x l IH]; intros pre; [done|].
  cbn [length seq mapM].
  pose proof (list_lookup_middle pre l x (length pre) eq_refl) as Hx.
  rewrite Hx. cbn [or_raise].
  rewrite bind_Ok.
  specialize (IH (pre ++ [x])). rewrite <- app_assoc in IH. cbn [app] in IH.
  rewrite length_app in IH. cbn [length] in IH.
  rewrite Nat.add_1_r in IH. rewrite IH. reflexivity.
Qed.

Lemma omap_lookup_seq {A} (pre l : list A) :
  omap (fun i => (pre ++ l) !! i) (seq (length pre) (length l)) = l.
Proof.
  revert pre. induction l as [|x l IH]; intros pre; [done|].
  cbn [length seq omap list_omap].
  rewrite (list_lookup_middle pre l x (length pre) eq_refl).
  fold (@omap list _ nat A (fun i => (pre ++ x :: l) !! i)).
  specialize (IH (pre ++ [x])). rewrite <- app_assoc in IH. cbn [app] in IH.
  rewrite length_app in IH. cbn [length] in IH.
  rewrite Nat.add_1_r in IH. by rewrite IH.
Qed.

(** ** Rows of a frame *)

Section RowFacts.

Context {datetime : Type}.

Lemma zip_records_lookup (ts : list datetime) lv ms ss la i :
  zip_records ts lv ms ss la !! i
  = (t ← ts !! i; l ← lv !! i; m ← ms !! i; s ← ss !! i; a ← la !! i;
     Some {| sr_timestamp := t; sr_level := l; sr_message := m;
             sr_score := s; sr_is_anomaly := a |}).
Proof.
  revert lv ms ss la i.
  induction ts as [|t ts IH]; intros lv ms ss la i; [done|].
  destruct lv as [|l lv], ms as [|m ms], ss as [|s ss], la as [|a la],
    i as [|i]; cbn; try apply IH; try done;
    repeat (match goal with
            | |- context [?l !! ?k] => destruct (l !! k)
            end; cbn); done.
Qed.

Lemma iloc_columns (df : DataFrame datetime) ts lv ms ss la i :
  columns df !! "timestamp" = Some (TimeCol ts) ->
  columns df !! "level" = Some (StrCol lv) ->
  columns df !! "message" = Some (StrCol ms) ->
  columns df !! "score" = Some (NumCol ss) ->
  columns df !! "is_anomaly" = Some (LabelCol la) ->
  iloc df i = zip_records ts lv ms ss la !! i.
Proof.
  intros Ht Hl Hm Hs Ha. unfold iloc. rewrite Ht, Hl, Hm, Hs, Ha.
  by rewrite zip_records_lookup.
Qed.

Lemma zip_records_filter mask (ts : list datetime) lv ms ss la :
  zip_records (filter_mask mask ts) (filter_mask mask lv)
    (filter_mask mask ms) (filter_mask mask ss) (filter_mask mask la)
  = filter_mask mask (zip_records ts lv ms ss la).
Proof.
  revert ts lv ms ss la. induction mask as [|b mask IH];
    intros ts lv ms ss la.
  { by destruct ts, lv, ms, ss, la. }
  destruct ts as [|t ts]; [done|].
  destruct lv as [|l lv].
  { cbn [filter_mask zip_records]. by destruct b, (filter_mask mask ts). }
  destruct ms as [|m ms].
  { cbn [filter_mask zip_records].
    by destruct b, (filter_mask mask ts), (filter_mask mask lv). }
  destruct ss as [|s ss].
  { cbn [filter_mask zip_records].
    by destruct b, (filter_mask mask ts), (filter_mask mask lv),
         (filter_mask mask ms). }
  destruct la as [|a la].
  { cbn [filter_mask zip_records].
    by destruct b, (filter_mask mask ts), (filter_mask mask lv),
         (filter_mask mask ms), (filter_mask mask ss). }
  cbn [filter_mask zip_records]. destruct b; cbn [zip_records]; by rewrite IH.
Qed.

Lemma zip_records_labels (ts : list datetime) lv ms ss la :
  length ts = length la -> length lv = length la ->
  length ms = length la -> length ss = length la ->
  map sr_is_anomaly (zip_records ts lv ms ss la) = la.
Proof.
  revert ts lv ms ss. induction la as [|a la IH];
    intros [|t ts] [|l lv] [|m ms] [|s ss]; try done.
  intros [= H1] [= H2] [= H3] [= H4]. cbn. by rewrite IH.
Qed.

Lemma zip_records_length (ts : list datetime) lv ms ss la :
  length ts = length la -> length lv = length la ->
  length ms = length la -> length ss = length la ->
  length (zip_records ts lv ms ss la) = length la.
Proof.
  intros. rewrite <- (zip_records_labels ts lv ms ss la) at 2 by done.
  by rewrite length_map.
Qed.

Lemma rows_columns (df : DataFrame datetime) ts lv ms ss la :
  columns df !! "timestamp" = Some (TimeCol ts) ->
  columns df !! "level" = Some (StrCol lv) ->
  columns df !! "message" = Some (StrCol ms) ->
  columns df !! "score" = Some (NumCol ss) ->
  columns df !! "is_anomaly" = Some (LabelCol la) ->
  index df = length (zip_records ts lv ms ss la) ->
  rows df = zip_records ts lv ms ss la.
Proof.
  intros Ht Hl Hm Hs Ha Hi. unfold rows. rewrite Hi.
  etransitivity; [|apply (omap_lookup_seq [] (zip_records ts lv ms ss la))].
  cbn [length app]. apply list_omap_ext, Forall_Forall2_diag, Forall_forall.
  intros i _. by apply iloc_columns.
Qed.

Lemma mapM_result_ext {A B} (f g : A -> result B) (l : list A) :
  (forall x, f x = g x) -> mapM f l = mapM g l.
Proof.
  intros H. induction l as [|x l IH]; [done|].
  cbn [mapM]. by rewrite H, IH.
Qed.

Lemma iterrows_columns (df : DataFrame datetime) ts lv ms ss la :
  columns df !! "timestamp" = Some (TimeCol ts) ->
  columns df !! "level" = Some (StrCol lv) ->
  columns df !! "message" = Some (StrCol ms) ->
  columns df !! "score" = Some (NumCol ss) ->
  columns df !! "is_anomaly" = Some (LabelCol la) ->
  index df = length (zip_records ts lv ms ss la) ->
  iterrows df = Ok (zip_records ts lv ms ss la).
Proof.
  intros Ht Hl Hm Hs Ha Hi. unfold iterrows. rewrite Hi.
  etransitivity;
    [|apply (mapM_lookup_seq (TypeError "row") []
               (zip_records ts lv ms ss la))].
  cbn [length app]. apply mapM_result_ext.
  intros i. f_equal. by apply iloc_columns.
Qed.

End RowFacts.

Section PageFacts.

Context {datetime fitted : Type}.
Variable to_datetime : list string -> option (list datetime).
Variable np_sqrt : Q -> Q.
Variable decision_function : fitted -> ndarray -> option (list Q).
Variable fit_predict : fit_predict_t fitted.
Variable str_datetime : datetime -> string.
Variable format_3f : option Q -> string.

Abbreviation run :=
  (analyze_logs to_datetime np_sqrt decision_function fit_predict).
Abbreviation home' :=
  (home to_datetime np_sqrt decision_function fit_predict str_datetime
     format_3f).

(** Selecting rows of a frame that has the five columns of a row view. *)
Lemma select_rows (df : DataFrame datetime) ts lv ms ss la mask :
  columns df !! "timestamp" = Some (TimeCol ts) ->
  columns df !! "level" = Some (StrCol lv) ->
  columns df !! "message" = Some (StrCol ms) ->
  columns df !! "score" = Some (NumCol ss) ->
  columns df !! "is_anomaly" = Some (LabelCol la) ->
  length ts = length la -> length lv = length la ->
  length ms = length la -> length ss = length la ->
  index df = length la -> length mask = length la ->
  exists sel,
    select df mask = Ok sel
    /\ index sel = length (filter_mask mask (zip_records ts lv ms ss la))
    /\ iterrows sel = Ok (filter_mask mask (zip_records ts lv ms ss la)).
Proof.
  intros Ht Hl Hm Hs Ha H1 H2 H3 H4 Hi Hmask.
  eexists. unfold select. rewrite Hmask, Hi, Nat.eqb_refl.
  split; [reflexivity|].
  assert (length (filter_mask mask mask)
          = length (filter_mask mask (zip_records ts lv ms ss la))) as Hlen.
  { apply filter_mask_length. by rewrite zip_records_length. }
  split; [exact Hlen|].
  rewrite <- zip_records_filter.
  apply iterrows_columns; cbn [columns index];
    rewrite ?lookup_fmap, ?Ht, ?Hl, ?Hm, ?Hs, ?Ha; try reflexivity.
  by rewrite zip_records_filter.
Qed.

Lemma eq_label_column (df : DataFrame datetime) la v :
  columns df !! "is_anomaly" = Some (LabelCol la) ->
  eq_label df "is_anomaly" v = Ok (map (fun x => bool_decide (x = v)) la).
Proof. intros Ha. unfold eq_label, getitem. by rewrite Ha. Qed.

Lemma filter_rows_by_label (R : list (@ScoredRecord datetime)) v :
  filter_mask (map (fun x => bool_decide (x = v)) (map sr_is_anomaly R)) R
  = filter (fun r => sr_is_anomaly r = v) R.
Proof.
  rewrite map_map. apply (filter_mask_decide (fun r => sr_is_anomaly r = v)).
Qed.

Lemma rows_partition (R : list (@ScoredRecord datetime)) :
  (length (filter (fun r => sr_is_anomaly r = Normal) R)
   + length (filter (fun r => sr_is_anomaly r = Anomaly) R) = length R)%nat.
Proof.
  induction R as [|r R IH]; [done|].
  rewrite !filter_cons. destruct (sr_is_anomaly r).
  - rewrite decide_False, decide_True by done. cbn [length]. lia.
  - rewrite decide_True, decide_False by done. cbn [length]. lia.
Qed.

(** The page for a frame that has the five columns of a row view. *)
Lemma home_of_frame logs (df : DataFrame datetime) ts lv ms ss la :
  run logs = Ok df ->
  columns df !! "timestamp" = Some (TimeCol ts) ->
  columns df !! "level" = Some (StrCol lv) ->
  columns df !! "message" = Some (StrCol ms) ->
  columns df !! "score" = Some (NumCol ss) ->
  columns df !! "is_anomaly" = Some (LabelCol la) ->
  length ts = length la -> length lv = length la ->
  length ms = length la -> length ss = length la ->
  index df = length la ->
  rows df = zip_records ts lv ms ss la
  /\ home' logs
     = Ok (page (length (rows df))
             (length (filter (fun r => sr_is_anomaly r = Normal) (rows df)))
             (length (filter (fun r => sr_is_anomaly r = Anomaly) (rows df)))
             (map (problem_entry str_datetime format_3f)
                (filter (fun r => sr_is_anomaly r = Anomaly) (rows df)))).
Proof.
  intros Hrun Ht Hl Hm Hs Ha H1 H2 H3 H4 Hi.
  pose proof (zip_records_labels ts lv ms ss la H1 H2 H3 H4) as Hlabels.
  pose proof (zip_records_length ts lv ms ss la H1 H2 H3 H4) as Hlen.
  assert (rows df = zip_records ts lv ms ss la) as Hrows.
  { apply rows_columns; try done. by rewrite Hlen. }
  split; [done|]. rewrite Hrows.
  unfold home. rewrite Hrun, bind_Ok.
  rewrite (eq_label_column df la Anomaly Ha), bind_Ok.
  destruct (select_rows df ts lv ms ss la
              (map (fun x => bool_decide (x = Anomaly)) la))
    as (anomalies & -> & Hia & Hra); try done; [by rewrite length_map|].
  rewrite bind_Ok, (eq_label_column df la Normal Ha), bind_Ok.
  destruct (select_rows df ts lv ms ss la
              (map (fun x => bool_decide (x = Normal)) la))
    as (normals & -> & Hin & _); try done; [by rewrite length_map|].
  rewrite bind_Ok, Hra, bind_Ok, Hia, Hin, Hi, <- Hlen.
  set (R := zip_records ts lv ms ss la) in *. clearbody R.
  rewrite <- Hlabels. by rewrite !filter_rows_by_label.
Qed.

(** The page of a run that returns a frame. *)
Lemma home_of_run logs (df : DataFrame datetime) :
  run logs = Ok df ->
  length (rows df) = length (parse_logs logs)
  /\ map sr_is_anomaly (rows df)
     = match columns df !! "is_anomaly" with
       | Some (LabelCol la) => la
       | _ => []
       end
  /\ home' logs
     = Ok (page (length (rows df))
             (length (filter (fun r => sr_is_anomaly r = Normal) (rows df)))
             (length (filter (fun r => sr_is_anomaly r = Anomaly) (rows df)))
             (map (problem_entry str_datetime format_3f)
                (filter (fun r => sr_is_anomaly r = Anomaly) (rows df)))).
Proof.
  intros Hrun. pose proof Hrun as Hinv.
  apply score_records_inv in Hinv
    as (Hne & parsed & anomaly & score & Hret & Hdf).
  destruct Hret as (_ & Hlp & _ & _ & _ & _ & Hls).
  set (la := map (classify (quantile (5 # 100) (map Some score)))
                 (map Some score)).
  assert (length la = length (parse_logs logs)) as Hla
    by (subst la; by rewrite !length_map).
  destruct (home_of_frame logs df parsed (column 1 (parse_logs logs))
              (column 2 (parse_logs logs)) (map Some score) la)
    as [Hrows Hhome]; try done; subst df.
  - rewrite final_frame_parsed by set_solver. apply lookup_insert_eq.
  - rewrite final_frame_parsed by set_solver. apply parsed_frame_level.
  - rewrite final_frame_parsed by set_solver. apply parsed_frame_message.
  - apply final_frame_score.
  - apply final_frame_is_anomaly.
  - congruence.
  - unfold column. rewrite length_map. congruence.
  - unfold column. rewrite length_map. congruence.
  - rewrite length_map. congruence.
  - cbn [final_frame index]. congruence.
  - split; [|split; [|exact Hhome]].
    + rewrite Hrows, zip_records_length; try done; try congruence;
        unfold column; rewrite ?length_map; congruence.
    + rewrite final_frame_is_anomaly. fold la. rewrite Hrows.
      apply zip_records_labels; try congruence;
        unfold column; rewrite ?length_map; congruence.
Qed.

End PageFacts.

(** ** When a run returns, and what *)

Lemma with_columns_dom {datetime} names cols
    (m : gmap string (series datetime)) :
  length names = length cols ->
  dom (with_columns names cols m) = list_to_set names ∪ dom m.
Proof.
  revert cols m. induction names as [|c names IH]; intros [|col cols] m Hlen;
    try done.
  - cbn [with_columns zip zip_with fold_left list_to_set].
    by rewrite (left_id_L ∅ (∪)).
  - injection Hlen as Hlen. rewrite with_columns_cons, IH by done.
    rewrite dom_insert_L. cbn [list_to_set].
    rewrite (assoc_L (∪)). f_equal. apply (comm_L (∪)).
Qed.

Lemma with_columns_lengths {datetime} n names cols
    (m : gmap string (series datetime)) :
  Forall (fun col => length col = n) cols ->
  map_Forall (fun _ s => series_len s = n) m ->
  map_Forall (fun _ s => series_len s = n) (with_columns names cols m).
Proof.
  revert cols m. induction names as [|c names IH]; intros [|col cols] m Hc Hm;
    try done.
  apply Forall_cons in Hc as [Hcol Hc]. rewrite with_columns_cons.
  apply IH; [done|]. by apply map_Forall_insert_2.
Qed.

Section Outcome.

Context {datetime fitted : Type}.
Variable to_datetime : list string -> option (list datetime).
Variable np_sqrt : Q -> Q.
Variable decision_function : fitted -> ndarray -> option (list Q).
Variable fit_predict : fit_predict_t fitted.

Abbreviation run :=
  (analyze_logs to_datetime np_sqrt decision_function fit_predict).

(** X12. A run returns a frame exactly when at least one row was parsed
    and each of the three external calls returns one value per row; the
    frame is then the one written out in [final_frame], and nothing else is
    ever returned. *)
Theorem run_returns_iff (logs : list string) (df : DataFrame datetime) :
  run logs = Ok df
  <-> parse_logs logs <> []
      /\ exists parsed anomaly score,
           collaborators_return to_datetime np_sqrt decision_function
             fit_predict (parse_logs logs) parsed anomaly score
           /\ df = final_frame np_sqrt (parse_logs logs) parsed anomaly score.
Proof.
  split.
  - apply score_records_inv.
  - intros (Hne & parsed & anomaly & score & Hret & ->).
    by apply score_records_ok.
Qed.

(** X13. The returned frame has exactly the eleven columns that the code
    writes, and every column has one cell per parsed row. *)
Theorem returned_frame_columns (logs : list string) (df : DataFrame datetime) :
  run logs = Ok df ->
  index df = length (parse_logs logs)
  /\ dom (columns df) = list_to_set all_columns
  /\ forall c s, columns df !! c = Some s -> series_len s = index df.
Proof.
  intros Hrun. apply score_records_inv in Hrun
    as (Hne & parsed & anomaly & score & Hret & ->).
  destruct Hret as (_ & Hlp & _ & _ & Hla & _ & Hls).
  split; [reflexivity|]. split.
  - cbn [final_frame columns parsed_frame frame_of_rows].
    rewrite !dom_insert_L, !with_columns_dom by reflexivity.
    rewrite dom_insert_L, dom_list_to_map_L.
    unfold all_columns, feature_cols, keywords. cbn. set_solver.
  - cbn [final_frame columns index].
    apply map_Forall_lookup.
    do 3 (apply map_Forall_insert_2;
            [cbn [series_len]; by rewrite ?length_map|]).
    apply with_columns_lengths; [apply scaled_features_rows|].
    apply with_columns_lengths; [apply raw_features_rows|].
    cbn [parsed_frame columns frame_of_rows].
    apply map_Forall_insert_2; [done|].
    intros c s Hs%elem_of_list_to_map_2.
    apply elem_of_lookup_imap in Hs as (j & name & [= -> ->] & _).
    cbn [series_len]. by rewrite length_map.
Qed.

(** X14. A timestamp column that [to_datetime] refuses ends the run with
    that error, whatever the other lines and the estimator are. *)
Theorem unparsable_timestamp_aborts (logs : list string) :
  to_datetime (column 0 (parse_logs logs)) = None ->
  run logs = Raise ValueError_to_datetime.
Proof.
  intros H. unfold analyze_logs. by rewrite score_records_eq, H.
Qed.

(** X15. When the timestamps parse and there is at least one row, an
    estimator that refuses the scaled features ends the run with its
    error. *)
Theorem estimator_failure_aborts (logs : list string)
    (parsed : list datetime) :
  parse_logs logs <> [] ->
  to_datetime (column 0 (parse_logs logs)) = Some parsed ->
  length parsed = length (parse_logs logs) ->
  fit_predict model (scaled_features np_sqrt (parse_logs logs)) = None ->
  run logs = Raise ValueError_estimator.
Proof.
  intros Hne Hts Hlen Hfit. unfold analyze_logs.
  rewrite score_records_eq, Hts, Hfit.
  apply Nat.eqb_eq in Hlen. rewrite Hlen.
  by destruct (parse_logs logs).
Qed.

End Outcome.

(** ** The page *)

Lemma substring_app_l x a s : substring x s -> substring x (a +:+ s).
Proof.
  intros (pre & suf & ->). exists (a +:+ pre), suf.
  by rewrite !app_assoc_string.
Qed.

Lemma substring_app_r x s b : substring x s -> substring x (s +:+ b).
Proof.
  intros (pre & suf & ->). exists pre, (suf +:+ b).
  by rewrite !app_assoc_string.
Qed.

Lemma substring_here x b : substring x (x +:+ b).
Proof. by exists "", b. Qed.

Lemma substring_join x (strs : list string) s :
  s ∈ strs -> substring x s -> substring x (join strs).
Proof.
  induction strs as [|y strs IH]; [by intros H%elem_of_nil|].
  intros [-> | Hin]%elem_of_cons Hx; cbn [join foldr].
  - by apply substring_app_r.
  - apply substring_app_l. by apply IH.
Qed.

Lemma flagged_rows_count {datetime} (R : list (@ScoredRecord datetime)) :
  length (filter (fun r => sr_is_anomaly r = Anomaly) R)
  = anomaly_count (map sr_is_anomaly R).
Proof.
  unfold anomaly_count. induction R as [|r R IH]; [done|].
  cbn [map]. rewrite !filter_cons.
  destruct (decide (sr_is_anomaly r = Anomaly)); cbn [length]; by rewrite IH.
Qed.

Section PageClaims.

Context {datetime fitted : Type}.
Variable to_datetime : list string -> option (list datetime).
Variable np_sqrt : Q -> Q.
Variable decision_function : fitted -> ndarray -> option (list Q).
Variable fit_predict : fit_predict_t fitted.
Variable str_datetime : datetime -> string.
Variable format_3f : option Q -> string.

Abbreviation run :=
  (analyze_logs to_datetime np_sqrt decision_function fit_predict).
Abbreviation home' :=
  (home to_datetime np_sqrt decision_function fit_predict str_datetime
     format_3f).
Abbreviation entry := (problem_entry str_datetime format_3f).

Lemma home_inv logs pg :
  home' logs = Ok pg ->
  exists df,
    run logs = Ok df
    /\ length (rows df) = length (parse_logs logs)
    /\ pg = page (length (rows df))
              (length (filter (fun r => sr_is_anomaly r = Normal) (rows df)))
              (length (filter (fun r => sr_is_anomaly r = Anomaly) (rows df)))
              (map entry (filter (fun r => sr_is_anomaly r = Anomaly)
                            (rows df))).
Proof.
  intros Hhome. destruct (run logs) as [df|e] eqn:Hrun.
  - exists df. split; [done|].
    destruct (home_of_run to_datetime np_sqrt decision_function fit_predict
                str_datetime format_3f logs df Hrun) as (Hlen & _ & Heq).
    split; [done|]. rewrite Heq in Hhome. by injection Hhome.
  - unfold home in Hhome. by rewrite Hrun in Hhome.
Qed.

(** X16. The page of a request: its total is the number of parsed rows,
    its entries are the flagged rows of the returned frame in frame order,
    one entry per problem counted, and the normal count is the rest. *)
Theorem page_reports_frame (logs : list string) (pg : string) :
  home' logs = Ok pg ->
  exists (df : DataFrame datetime) (normal : nat),
    run logs = Ok df
    /\ pg = page (length (parse_logs logs)) normal
              (length (filter (fun r => sr_is_anomaly r = Anomaly) (rows df)))
              (map entry (filter (fun r => sr_is_anomaly r = Anomaly)
                            (rows df)))
    /\ (normal
        + length (filter (fun r => sr_is_anomaly r = Anomaly) (rows df))
        = length (parse_logs logs))%nat.
Proof.
  intros (df & Hrun & Hlen & ->)%home_inv.
  exists df, (length (filter (fun r => sr_is_anomaly r = Normal) (rows df))).
  split; [done|]. rewrite Hlen. split; [done|].
  rewrite <- Hlen. apply rows_partition.
Qed.

(** X17. A page is produced exactly when the analysis returns a frame:
    building the page from a returned frame never fails, and an error of the
    analysis is the error of the request. *)
Theorem page_iff_frame (logs : list string) :
  ((exists pg, home' logs = Ok pg) <-> (exists df, run logs = Ok df))
  /\ forall e, run logs = Raise e -> home' logs = Raise e.
Proof.
  split; [split|].
  - intros [pg (df & Hrun & _)%home_inv]. by exists df.
  - intros [df Hrun].
    destruct (home_of_run to_datetime np_sqrt decision_function fit_predict
                str_datetime format_3f logs df Hrun) as (_ & _ & Heq).
    eauto.
  - intros e Hrun. unfold home. by rewrite Hrun.
Qed.

(** X18. The page never counts more than [(N - 1) / 20 + 1] problems among
    [N] rows, and always counts at least one normal row. *)
Theorem page_problem_bound (logs : list string) (pg : string) :
  home' logs = Ok pg ->
  exists (normal problems : nat) (entries : list string),
    pg = page (length (parse_logs logs)) normal problems entries
    /\ length entries = problems
    /\ (problems <= (length (parse_logs logs) - 1) / 20 + 1)%nat
    /\ (1 <= normal)%nat
    /\ (normal + problems = length (parse_logs logs))%nat.
Proof.
  intros (df & Hrun & Hlen & ->)%home_inv.
  destruct (home_of_run to_datetime np_sqrt decision_function fit_predict
              str_datetime format_3f logs df Hrun) as (_ & Hlabels & _).
  destruct (run_scores _ _ _ _ _ _ Hrun) as (score & Hne & Hls & _ & Hla).
  rewrite Hla in Hlabels.
  eexists _, _, _. rewrite Hlen. split; [reflexivity|].
  split; [by rewrite length_map|].
  pose proof (rows_partition (rows df)) as Hpart. rewrite Hlen in Hpart.
  assert (length (filter (fun r => sr_is_anomaly r = Anomaly) (rows df))
          <= Nat.min ((length score - 1) / 20 + 1) (length score - 1))%nat
    as Hbound.
  { rewrite flagged_rows_count, Hlabels.
    destruct (quantile_between score Hne)
      as (a & b & t & Ha & Hb & Hq & Hat & Htb).
    rewrite Hq, anomaly_count_scores.
    by apply (count_below_sorted score t b). }
  assert (0 < length score)%nat by (destruct score; [done | cbn; lia]).
  rewrite Hls in *. repeat split; lia.
Qed.

(** X19. Level and message of a flagged row stand in the page character
    for character: nothing escapes them. *)
Theorem page_embeds_text (logs : list string) (pg : string) :
  home' logs = Ok pg ->
  exists df : DataFrame datetime,
    run logs = Ok df
    /\ forall r, r ∈ rows df -> sr_is_anomaly r = Anomaly ->
         substring (sr_level r +:+ div_level +:+ sr_message r) pg.
Proof.
  intros (df & Hrun & Hlen & ->)%home_inv.
  exists df. split; [done|]. intros r Hr Hflag.
  unfold page.
  do 7 apply substring_app_l. apply substring_app_r.
  apply substring_join with (entry r).
  - apply list_elem_of_fmap. exists r. split; [done|].
    by apply list_elem_of_filter.
  - unfold problem_entry. apply substring_app_l.
    eexists "", _. change ("" +:+ ?s) with s.
    by rewrite !app_assoc_string.
Qed.

End PageClaims.

(** ** The log file *)

Lemma readlines_line line rest :
  no_newline line = true ->
  readlines (line +:+ newline +:+ rest) = (line +:+ newline) :: readlines rest.
Proof.
  induction line as [|c line IH]; [done|].
  cbn [no_newline]. intros [Hc Hline]%andb_prop.
  rewrite !app_String. cbn [readlines].
  apply negb_true_iff in Hc. rewrite Hc, IH by done. reflexivity.
Qed.

Lemma readlines_write_lines logs :
  Forall (fun line => no_newline line = true) logs ->
  readlines (write_lines logs) = map (fun line => line +:+ newline) logs.
Proof.
  induction 1 as [|line logs Hline _ IH]; [done|].
  cbn [write_lines foldr map]. fold (write_lines logs).
  by rewrite readlines_line, IH.
Qed.

(** X20. Writing lines the way the sample file is written and reading them
    back with [readlines] gives every line with its newline, and parsing
    what was read gives the rows of the lines themselves. *)
Theorem write_read_round_trip (logs : list string) :
  Forall (fun line => no_newline line = true) logs ->
  readlines (write_lines logs) = map (fun line => line +:+ newline) logs
  /\ parse_logs (readlines (write_lines logs)) = parse_logs logs.
Proof.
  intros Hlogs. rewrite readlines_write_lines by done.
  split; [done|]. by apply (parse_logs_padded logs "" newline).
Qed.

Section Requests.

Context {datetime fitted : Type}.
Variable to_datetime : list string -> option (list datetime).
Variable np_sqrt : Q -> Q.
Variable decision_function : fitted -> ndarray -> option (list Q).
Variable fit_predict : fit_predict_t fitted.
Variable str_datetime : datetime -> string.
Variable format_3f : option Q -> string.

Abbreviation home' :=
  (home to_datetime np_sqrt decision_function fit_predict str_datetime
     format_3f).
Abbreviation serve' :=
  (serve to_datetime np_sqrt decision_function fit_predict str_datetime
     format_3f).

Lemma create_if_missing_lookup fs :
  create_if_missing fs !! log_file_path
  = Some (default (write_lines sample_logs) (fs !! log_file_path)).
Proof.
  unfold create_if_missing.
  destruct (fs !! log_file_path) as [content|] eqn:E; [done|].
  apply lookup_insert_eq.
Qed.

(** X21. A request and the file system.  An existing log file is read as
    it is and nothing is written; a missing one is created with the eight
    sample lines, which are then the lines analysed.  No other file is
    touched, and a second request finds the file system as the first left
    it, writes nothing and reads the lines the first one read. *)
Theorem serve_file_system (fs : gmap string string) :
  (forall content, fs !! log_file_path = Some content ->
     serve' fs = (fs, home' (readlines content)))
  /\ (fs !! log_file_path = None ->
      serve' fs = (<[log_file_path := write_lines sample_logs]> fs,
                   home' sample_lines))
  /\ (forall path, path <> log_file_path ->
        (serve' fs).1 !! path = fs !! path)
  /\ (serve' (serve' fs).1).1 = (serve' fs).1
  /\ (read_logs (serve' fs).1).2 = (read_logs fs).2.
Proof.
  assert (forall fs', serve' fs'
            = (create_if_missing fs',
               home' (readlines (create_if_missing fs' !!! log_file_path))))
    as Hserve by done.
  assert (forall fs', create_if_missing fs' !!! log_file_path
            = default (write_lines sample_logs) (fs' !! log_file_path))
    as Htotal.
  { intros fs'. rewrite lookup_total_alt, create_if_missing_lookup. done. }
  assert (create_if_missing (create_if_missing fs) = create_if_missing fs)
    as Hidem.
  { unfold create_if_missing at 1. by rewrite create_if_missing_lookup. }
  split; [|split; [|split; [|split]]].
  - intros content Hc. rewrite Hserve, Htotal, Hc.
    unfold create_if_missing. by rewrite Hc.
  - intros Hnone. rewrite Hserve, Htotal, Hnone.
    unfold create_if_missing. rewrite Hnone. cbn [default].
    assert (readlines (write_lines sample_logs) = sample_lines) as ->
      by (by vm_compute).
    done.
  - intros path Hpath. rewrite Hserve. cbn [fst].
    unfold create_if_missing.
    destruct (fs !! log_file_path); [done|].
    by rewrite lookup_insert_ne.
  - rewrite (Hserve fs). cbn [fst]. rewrite Hserve. cbn [fst]. exact Hidem.
  - rewrite (Hserve fs). cbn [fst]. unfold read_logs. cbn [snd].
    by rewrite Hidem.
Qed.

End Requests.

(** ** The further properties at concrete batches *)

Lemma parsed_row_rebuilds_line_witness :
  ["2024-09-10 10:17:12"; "WARNING"; "Memory usage at 85%"]
    ∈ parse_logs sample_lines
  /\ exists line,
       line ∈ sample_lines
       /\ reconstruct ["2024-09-10 10:17:12"; "WARNING"; "Memory usage at 85%"]
          = Py.strip line.
Proof.
  assert (["2024-09-10 10:17:12"; "WARNING"; "Memory usage at 85%"]
            ∈ parse_logs sample_lines) as Hin.
  { apply list_elem_of_lookup. by exists 2%nat. }
  split; [exact Hin|].
  exact (parsed_row_rebuilds_line sample_lines _ Hin).
Defined.

Lemma parsed_fields_shape_witness :
  ["2024-09-10 10:17:12"; "WARNING"; "Memory usage at 85%"]
    ∈ parse_logs sample_lines
  /\ exists d t,
       "2024-09-10 10:17:12" = d +:+ " " +:+ t
       /\ d <> "" /\ starts_clean d
       /\ no_blank d = true /\ no_blank t = true
       /\ no_blank "WARNING" = true
       /\ "Memory usage at 85%" <> ""
       /\ Py.rstrip "Memory usage at 85%" = "Memory usage at 85%".
Proof.
  assert (["2024-09-10 10:17:12"; "WARNING"; "Memory usage at 85%"]
            ∈ parse_logs sample_lines) as Hin.
  { apply list_elem_of_lookup. by exists 2%nat. }
  split; [exact Hin|].
  exact (parsed_fields_shape sample_lines _ _ _ Hin).
Defined.

Lemma surrounding_whitespace_ignored_witness :
  parse_logs (map (fun line => "  " +:+ line +:+ newline) sample_logs)
  = parse_logs sample_logs.
Proof.
  apply (surrounding_whitespace_ignored sample_logs "  " newline);
    reflexivity.
Defined.

Lemma blank_lines_dropped_witness : parse_logs [""; "   "; newline] = [].
Proof.
  apply (blank_lines_dropped [""; "   "; newline]).
  repeat constructor.
Defined.

Lemma contains_ignores_case_witness :
  contains "FAIL" "Failed to connect" = contains "fail" "FAILED TO CONNECT".
Proof.
  apply (contains_ignores_case "FAIL" "fail" "Failed to connect"
           "FAILED TO CONNECT"); reflexivity.
Defined.

Lemma contains_short_message_witness : contains "timeout" "late" = Some 0%Q.
Proof.
  apply (contains_short_message "timeout" "late"). cbn. lia.
Defined.

Lemma largest_score_is_normal_witness :
  exists df,
    Toy.run sample_lines = Ok df
    /\ exists (score : list Q) (labels : list label),
         columns df !! "score" = Some (NumCol (map Some score))
         /\ columns df !! "is_anomaly" = Some (LabelCol labels)
         /\ forall i s, score !! i = Some s ->
              (forall s', s' ∈ score -> (s' <= s)%Q) ->
              labels !! i = Some Normal.
Proof.
  destruct (Toy.run sample_lines) as [df|e] eqn:E.
  - exists df. split; [reflexivity|].
    exact (largest_score_is_normal Toy.to_datetime Toy.np_sqrt
             Toy.decision_function Toy.fit_predict sample_lines df E).
  - vm_compute in E. discriminate E.
Defined.

Lemma anomaly_count_bound_witness :
  exists df,
    Toy.run sample_lines = Ok df
    /\ exists labels : list label,
         columns df !! "is_anomaly" = Some (LabelCol labels)
         /\ length labels = length (parse_logs sample_lines)
         /\ (anomaly_count labels
             <= (length (parse_logs sample_lines) - 1) / 20 + 1)%nat
         /\ (anomaly_count labels < length (parse_logs sample_lines))%nat.
Proof.
  destruct (Toy.run sample_lines) as [df|e] eqn:E.
  - exists df. split; [reflexivity|].
    exact (anomaly_count_bound Toy.to_datetime Toy.np_sqrt
             Toy.decision_function Toy.fit_predict sample_lines df E).
  - vm_compute in E. discriminate E.
Defined.

Lemma flag_is_monotone_witness :
  exists df,
    Toy.run sample_lines = Ok df
    /\ exists (score : list Q) (labels : list label),
         columns df !! "score" = Some (NumCol (map Some score))
         /\ columns df !! "is_anomaly" = Some (LabelCol labels)
         /\ forall i j s s',
              score !! i = Some s -> score !! j = Some s' ->
              labels !! i = Some Anomaly -> (s' <= s)%Q ->
              labels !! j = Some Anomaly.
Proof.
  destruct (Toy.run sample_lines) as [df|e] eqn:E.
  - exists df. split; [reflexivity|].
    exact (flag_is_monotone Toy.to_datetime Toy.np_sqrt
             Toy.decision_function Toy.fit_predict sample_lines df E).
  - vm_compute in E. discriminate E.
Defined.

Lemma returned_frame_columns_witness :
  exists df,
    Toy.run sample_lines = Ok df
    /\ index df = length (parse_logs sample_lines)
    /\ dom (columns df) = list_to_set all_columns
    /\ forall c s, columns df !! c = Some s -> series_len s = index df.
Proof.
  destruct (Toy.run sample_lines) as [df|e] eqn:E.
  - exists df. split; [reflexivity|].
    exact (returned_frame_columns Toy.to_datetime Toy.np_sqrt
             Toy.decision_function Toy.fit_predict sample_lines df E).
  - vm_compute in E. discriminate E.
Defined.

Lemma unparsable_timestamp_aborts_witness :
  Strict.to_datetime (column 0 (parse_logs odd_timestamp_line)) = None
  /\ analyze_logs Strict.to_datetime Toy.np_sqrt Toy.decision_function
       Toy.fit_predict odd_timestamp_line
     = Raise ValueError_to_datetime.
Proof.
  split; [reflexivity|].
  apply (unparsable_timestamp_aborts Strict.to_datetime Toy.np_sqrt
           Toy.decision_function Toy.fit_predict odd_timestamp_line).
  reflexivity.
Defined.

Lemma estimator_failure_aborts_witness :
  Strict.fit_predict model (scaled_features Toy.np_sqrt (parse_logs debug_line))
  = None
  /\ analyze_logs Toy.to_datetime Toy.np_sqrt Toy.decision_function
       Strict.fit_predict debug_line
     = Raise ValueError_estimator.
Proof.
  split; [reflexivity|].
  apply (estimator_failure_aborts Toy.to_datetime Toy.np_sqrt
           Toy.decision_function Strict.fit_predict debug_line
           ["2024-09-10 10:15:23"]); try reflexivity.
  discriminate.
Defined.

Lemma write_read_round_trip_witness :
  readlines (write_lines sample_logs)
  = map (fun line => line +:+ newline) sample_logs
  /\ parse_logs (readlines (write_lines sample_logs)) = parse_logs sample_logs.
Proof.
  apply (write_read_round_trip sample_logs). repeat constructor.
Defined.

(** The page of the sample file with the stand-ins. *)
Lemma page_reports_frame_witness :
  exists pg,
    home Toy.to_datetime Toy.np_sqrt Toy.decision_function Toy.fit_predict
      id Strict.format_3f sample_lines = Ok pg
    /\ exists (df : DataFrame string) (normal : nat),
         Toy.run sample_lines = Ok df
         /\ pg = page (length (parse_logs sample_lines)) normal
                   (length (filter (fun r => sr_is_anomaly r = Anomaly)
                              (rows df)))
                   (map (problem_entry id Strict.format_3f)
                      (filter (fun r => sr_is_anomaly r = Anomaly) (rows df)))
         /\ (normal
             + length (filter (fun r => sr_is_anomaly r = Anomaly) (rows df))
             = length (parse_logs sample_lines))%nat.
Proof.
  destruct (home Toy.to_datetime Toy.np_sqrt Toy.decision_function
              Toy.fit_predict id Strict.format_3f sample_lines)
    as [pg|e] eqn:E.
  - exists pg. split; [reflexivity|].
    exact (page_reports_frame Toy.to_datetime Toy.np_sqrt
             Toy.decision_function Toy.fit_predict id Strict.format_3f
             sample_lines pg E).
  - vm_compute in E. discriminate E.
Defined.

Lemma page_problem_bound_witness :
  exists pg,
    home Toy.to_datetime Toy.np_sqrt Toy.decision_function Toy.fit_predict
      id Strict.format_3f sample_lines = Ok pg
    /\ exists (normal problems : nat) (entries : list string),
         pg = page (length (parse_logs sample_lines)) normal problems entries
         /\ length entries = problems
         /\ (problems <= (length (parse_logs sample_lines) - 1) / 20 + 1)%nat
         /\ (1 <= normal)%nat
         /\ (normal + problems = length (parse_logs sample_lines))%nat.
Proof.
  destruct (home Toy.to_datetime Toy.np_sqrt Toy.decision_function
              Toy.fit_predict id Strict.format_3f sample_lines)
    as [pg|e] eqn:E.
  - exists pg. split; [reflexivity|].
    exact (page_problem_bound Toy.to_datetime Toy.np_sqrt
             Toy.decision_function Toy.fit_predict id Strict.format_3f
             sample_lines pg E).
  - vm_compute in E. discriminate E.
Defined.

Lemma page_embeds_text_witness :
  exists pg,
    home Toy.to_datetime Toy.np_sqrt Toy.decision_function Toy.fit_predict
      id Strict.format_3f sample_lines = Ok pg
    /\ exists df : DataFrame string,
         Toy.run sample_lines = Ok df
         /\ forall r, r ∈ rows df -> sr_is_anomaly r = Anomaly ->
              substring (sr_level r +:+ div_level +:+ sr_message r) pg.
Proof.
  destruct (home Toy.to_datetime Toy.np_sqrt Toy.decision_function
              Toy.fit_predict id Strict.format_3f sample_lines)
    as [pg|e] eqn:E.
  - exists pg. split; [reflexivity|].
    exact (page_embeds_text Toy.to_datetime Toy.np_sqrt
             Toy.decision_function Toy.fit_predict id Strict.format_3f
             sample_lines pg E).
  - vm_compute in E. discriminate E.
Defined.
